(** * managed_etf: the data-collection driver, its adapters and the
    portfolio-value fold, embedded in Rocq

  The development follows the three Python modules of the repository:

  - [data_collection.py]: [get_yahoo_finance_data], [get_polygon_data],
    [get_google_trends_data], [get_stocktwits_data];
  - [driver.py]: [collect_data_for_ticker], [main];
  - [visualizations.py]: [calculate_portfolio_value],
    [calculate_benchmark_value] and the trade markers of
    [create_plotly_chart].

  Python exceptions are an error monad [Exc]; a pandas [DataFrame] is an
  index together with an ordered list of labelled columns; the thread pool
  of [main] is a map from future identifiers to tickers together with a
  schedule that fixes the order in which [as_completed] yields the futures.

  What the model leaves out: [print] (no effect on any returned value),
  [time.sleep], argument parsing and [os.makedirs]. Signals that are not
  subclasses of [Exception] (KeyboardInterrupt, SystemExit) are not
  modelled: every [Raise] below carries an [Exception]. Paths are joined
  as [posixpath] joins them. Frames are modelled where their column
  labels are distinct; a statement about a frame the code builds by
  renaming says under which condition on the input that is so. *)

From Stdlib Require Import ZArith String Ascii List Lia Reals.
From stdpp Require Import base option list gmap strings pretty sorting.

Open Scope string_scope.
Open Scope list_scope.
Open Scope nat_scope.

(** ** Python: exceptions and [try]/[except] *)

Module Py.

(** The exception classes the three modules can meet. All of them derive
    from [Exception]; [HTTPError] and [JSONDecodeError] also derive from
    [requests.exceptions.RequestException]. *)
Inductive Exception : Type :=
| ValueError (msg : string)
| KeyError (key : string)
| TypeError
| AttributeError
| OSError
| RequestException
| HTTPError (status : Z)
| JSONDecodeError
| OutOfBoundsDatetime
| RuntimeError (msg : string).

(** A Python call either returns a value or raises. *)
Inductive Exc (A : Type) : Type :=
| Ret (a : A)
| Raise (e : Exception).
Arguments Ret {A} a.
Arguments Raise {A} e.

#[export] Instance Exc_ret : MRet Exc := fun _ a => Ret a.
#[export] Instance Exc_bind : MBind Exc := fun _ _ k m =>
  match m with
  | Ret a => k a
  | Raise e => Raise e
  end.

(** One [except <classes> as e: handler e] clause. *)
Definition Clause (A : Type) : Type := ((Exception -> bool) * (Exception -> Exc A))%type.

Fixpoint handle {A} (clauses : list (Clause A)) (e : Exception) : Exc A :=
  match clauses with
  | [] => Raise e
  | (classes, handler) :: rest => if classes e then handler e else handle rest e
  end.

(** [try: body; except ...: ...; except ...: ...]. The first clause whose
    classes contain the exception handles it; an exception none of them
    names goes on to the caller. *)
Definition try_except {A} (body : Exc A) (clauses : list (Clause A)) : Exc A :=
  match body with
  | Ret a => Ret a
  | Raise e => handle clauses e
  end.

(** [except Exception]: every modelled class. *)
Definition is_Exception (e : Exception) : bool := true.

(** [except requests.exceptions.RequestException]. *)
Definition is_RequestException (e : Exception) : bool :=
  match e with
  | RequestException | HTTPError _ | JSONDecodeError => true
  | _ => false
  end.

(** [try: ... finally: cleanup]: the cleanup runs on both exits and the
    body's exit stands unless the cleanup raises itself. *)
Definition try_finally {A} (body : Exc A) (cleanup : Exc unit) : Exc A :=
  match cleanup with
  | Ret _ => body
  | Raise e => Raise e
  end.

Definition returned {A} (m : Exc A) : bool :=
  match m with Ret _ => true | Raise _ => false end.

(** [d.get(k)] on an insertion-ordered [dict] with string keys. *)
Fixpoint dict_get {V} (d : list (string * V)) (k : string) : option V :=
  match d with
  | [] => None
  | (k', v) :: d' => if String.eqb k k' then Some v else dict_get d' k
  end.

(** [k in d]. *)
Definition dict_mem {V} (d : list (string * V)) (k : string) : bool :=
  match dict_get d k with Some _ => true | None => false end.

Definition newline : string := String "010"%char "".

(** [sep.join(parts)]. *)
Definition str_join (sep : string) (parts : list string) : string :=
  String.concat sep parts.

End Py.
Import Py.

(** ** pandas: the fragment of [Series] and [DataFrame] the adapters use *)

(** float64 arithmetic is kept abstract: [F] is the set of float64 values
  other than NaN, and an operation answers [None] where IEEE 754 answers
  NaN. [to_datetime_ms] is [pd.to_datetime(_, unit='ms')] on one value; it
  raises when the value is out of the representable range. *)
Class Float64 (F : Type) : Type := {
  float_div : F -> F -> option F;
  float_log : F -> option F;
  to_datetime_ms : F -> Exc Z
}.

Module pandas.
Section Frames.
Context {F : Type} `{Float64 F}.

(** A column: numeric data, where [None] is NaN, or labels (datetime64
    stamps or integer positions), where [None] is NaT. Integer and float
    data columns are not told apart. *)
Inductive Series : Type :=
| Numeric (xs : list (option F))
| Labels (ls : list (option Z)).

Inductive Index : Type :=
| RangeIndex (n : nat)
| LabelIndex (name : option string) (labels : Series).

(** Columns are kept in order, as a [dict] from label to column; labels
    are assumed distinct, as in every frame the providers deliver. *)
Record DataFrame : Type := {
  df_index : Index;
  df_columns : list (string * Series)
}.

Definition series_length (s : Series) : nat :=
  match s with
  | Numeric xs => length xs
  | Labels ls => length ls
  end.

Definition index_length (i : Index) : nat :=
  match i with
  | RangeIndex n => n
  | LabelIndex _ s => series_length s
  end.

(** [df.columns], as a list of labels. *)
Definition columns (df : DataFrame) : list string := map fst (df_columns df).

(** [df.empty]: some axis has length 0. *)
Definition empty (df : DataFrame) : bool :=
  (index_length (df_index df) =? 0) || (length (df_columns df) =? 0).

(** [col in df.columns]. *)
Definition has_column (df : DataFrame) (col : string) : bool :=
  dict_mem (df_columns df) col.

(** [df[col]]. *)
Definition getitem (df : DataFrame) (col : string) : Exc Series :=
  match dict_get (df_columns df) col with
  | Some s => Ret s
  | None => Raise (KeyError col)
  end.

Fixpoint dict_set {V} (d : list (string * V)) (k : string) (v : V)
    : list (string * V) :=
  match d with
  | [] => [(k, v)]
  | (k', v') :: d' =>
      if String.eqb k k' then (k', v) :: d' else (k', v') :: dict_set d' k v
  end.

(** [df[col] = s]: replaces the column in place, or appends it. *)
Definition setitem (df : DataFrame) (col : string) (s : Series) : DataFrame :=
  {| df_index := df_index df; df_columns := dict_set (df_columns df) col s |}.

(** [df[[c1, ..., cn]]]: the named columns, in the order asked for. This
    is the operation on a frame whose labels are distinct; where a label
    is carried by several columns pandas hands back all of them, which
    is not modelled. *)
Definition select (df : DataFrame) (cols : list string) : Exc DataFrame :=
  picked ← mapM (fun c => s ← getitem df c; mret (c, s)) cols;
  mret {| df_index := df_index df; df_columns := picked |}.

(** [df.columns = names]: positional relabelling; the lengths must agree. *)
Definition set_columns (df : DataFrame) (names : list string) : Exc DataFrame :=
  if length names =? length (df_columns df) then
    Ret {| df_index := df_index df;
           df_columns := zip names (map snd (df_columns df)) |}
  else Raise (ValueError "Length mismatch").

(** [df.reset_index()]: the index becomes the first column, named after
    the index (or [index], or [level_0] when that is taken), and the frame
    gets a fresh [RangeIndex]. Inserting a label that is already a column
    raises. *)
Definition reset_index (df : DataFrame) : Exc DataFrame :=
  let n := index_length (df_index df) in
  let '(name, col) :=
    match df_index df with
    | RangeIndex k =>
        (None, Labels (map (fun i => Some (Z.of_nat i)) (seq 0 k)))
    | LabelIndex name s => (name, s)
    end in
  let label :=
    match name with
    | Some l => l
    | None => if has_column df "index" then "level_0" else "index"
    end in
  if has_column df label then
    Raise (ValueError ("cannot insert " +:+ label +:+ ", already exists"))
  else
    Ret {| df_index := RangeIndex n;
           df_columns := (label, col) :: df_columns df |}.

(** [df.set_index(col)]. *)
Definition set_index (df : DataFrame) (col : string) : Exc DataFrame :=
  s ← getitem df col;
  mret {| df_index := LabelIndex (Some col) s;
          df_columns :=
            filter (fun kv => negb (String.eqb (fst kv) col)) (df_columns df) |}.

(** [df.rename(columns=mapping)]: labels absent from the mapping stay.
    The labels of the result are distinct only if no column already
    carries the new name of another. *)
Definition rename (df : DataFrame) (mapping : list (string * string)) : DataFrame :=
  {| df_index := df_index df;
     df_columns :=
       map (fun kv => (default (fst kv) (dict_get mapping (fst kv)), snd kv))
           (df_columns df) |}.

(** [s.shift(1)]: every value moves one row down, the first row is NaN
    (NaT for labels) and the length is kept. *)
Definition shift1 (s : Series) : Series :=
  match s with
  | Numeric xs => Numeric (take (length xs) (None :: xs))
  | Labels ls => Labels (take (length ls) (None :: ls))
  end.

(** NaN in, NaN out. *)
Definition nan_div (x y : option F) : option F :=
  a ← x; b ← y; float_div a b.

Definition nan_log (x : option F) : option F :=
  a ← x; float_log a.

(** [s1 / s2] for two columns of one frame, row by row; dividing
    datetimes is a [TypeError]. *)
Definition truediv (s1 s2 : Series) : Exc Series :=
  match s1, s2 with
  | Numeric xs, Numeric ys => Ret (Numeric (zip_with nan_div xs ys))
  | _, _ => Raise TypeError
  end.

(** [np.log(s)]. *)
Definition np_log (s : Series) : Exc Series :=
  match s with
  | Numeric xs => Ret (Numeric (map nan_log xs))
  | Labels _ => Raise TypeError
  end.

(** [pd.to_datetime(s, unit='ms')]. *)
Definition to_datetime (s : Series) : Exc Series :=
  match s with
  | Numeric xs =>
      ls ← mapM (fun x : option F =>
                   match x with
                   | Some a => t ← to_datetime_ms a; mret (Some t)
                   | None => mret None
                   end) xs;
      mret (Labels ls)
  | Labels ls => Ret (Labels ls)
  end.

(** Column labels of [pd.DataFrame(records)]: the keys of the records in
    the order in which they are first seen. *)
Fixpoint first_seen (seen : list string) (keys : list string) : list string :=
  match keys with
  | [] => seen
  | k :: keys' =>
      if bool_decide (k ∈ seen) then first_seen seen keys'
      else first_seen (seen ++ [k]) keys'
  end.

(** [pd.DataFrame(records)] for a list of flat records of numbers: a key
    missing from a record gives NaN in that row. *)
Definition DataFrame_of_records (records : list (list (string * option F)))
    : DataFrame :=
  let labels := first_seen [] (concat (map (map fst) records)) in
  {| df_index := RangeIndex (length records);
     df_columns :=
       map (fun k => (k, Numeric (map (fun r => mjoin (dict_get r k)) records)))
           labels |}.

End Frames.
Arguments Series F : clear implicits.
Arguments Index F : clear implicits.
Arguments DataFrame F : clear implicits.
End pandas.
Import pandas.

(** ** data_collection.py *)

Module data_collection.
Section Adapters.
Context {F : Type} `{Float64 F}.

(** *** Yahoo Finance *)

Definition expected_columns : list string :=
  ["Date"; "Open"; "High"; "Low"; "Close"; "Volume"].

(** [yf_download] is what [yf.download(ticker, start=.., end=..)] does in
    the run at hand: it returns a frame indexed by date, or raises. The
    function itself returns [None] on every path but the successful one and
    lets no exception out. *)
Definition get_yahoo_finance_data
    (yf_download : string -> string -> string -> Exc (DataFrame F))
    (ticker start_date end_date : string) : Exc (option (DataFrame F)) :=
  try_except
    (data ← yf_download ticker start_date end_date;
     if negb (empty data) then
       data ← reset_index data;
       let missing_columns :=
         List.filter (fun col => negb (has_column data col)) expected_columns in
       match missing_columns with
       | _ :: _ =>
           Raise (ValueError ("Missing columns in data: "
                              +:+ str_join ", " missing_columns))
       | [] =>
           close ← getitem data "Close";
           ratio ← truediv close (shift1 close);
           log_returns ← np_log ratio;
           let data := setitem data "LOG_RETURNS" log_returns in
           data ← select data
             ["Date"; "Open"; "High"; "Low"; "Close"; "Volume"; "LOG_RETURNS"];
           data ← set_columns data
             ["DATE"; "OPEN"; "HIGH"; "LOW"; "CLOSE"; "VOLUME"; "LOG_RETURNS"];
           mret (Some data)
       end
     else mret None)
    [(is_Exception, fun e => Ret None)].

(** The failure kinds the specification names for a fetch. The source has
    no such type; here they classify what the provider did, so that the
    adapter's answer can be compared across them. *)
Inductive FailureReason : Type := NoData | ProviderError | SchemaMismatch.

Inductive FetchFailure
    (yf_download : string -> string -> string -> Exc (DataFrame F))
    (ticker start_date end_date : string) : FailureReason -> Prop :=
| fetch_no_data raw :
    yf_download ticker start_date end_date = Ret raw ->
    empty raw = true ->
    FetchFailure yf_download ticker start_date end_date NoData
| fetch_provider_error exn :
    yf_download ticker start_date end_date = Raise exn ->
    FetchFailure yf_download ticker start_date end_date ProviderError
| fetch_schema_mismatch raw data col :
    yf_download ticker start_date end_date = Ret raw ->
    empty raw = false ->
    reset_index raw = Ret data ->
    In col expected_columns ->
    has_column data col = false ->
    FetchFailure yf_download ticker start_date end_date SchemaMismatch.

(** *** Polygon.io *)

(** The decoded JSON body, as far as the adapter looks into it: a value
    under a key is a string, a list of flat records of numbers (the
    aggregate bars), or some other scalar of which only the truth value
    matters. *)
Inductive JsonValue : Type :=
| JScalar (truthy : bool)
| JString (s : string)
| JRecords (rows : list (list (string * option F))).

(** The body itself is an object, or something else ([null], a list, a
    number) that has no [get]. *)
Inductive JsonPayload : Type :=
| JObject (fields : list (string * JsonValue))
| JNotObject (truthy : bool).

Record Response : Type := {
  status_code : Z;
  json : Exc JsonPayload
}.

(** [response.raise_for_status()]. *)
Definition raise_for_status (r : Response) : Exc unit :=
  if ((400 <=? status_code r) && (status_code r <? 600))%Z
  then Raise (HTTPError (status_code r))
  else Ret tt.

Definition value_truthy (v : JsonValue) : bool :=
  match v with
  | JScalar b => b
  | JString s => negb (String.eqb s "")
  | JRecords rows => negb (length rows =? 0)
  end.

(** Truth value of the result of [data.get(key)], where [None] is Python's
    [None]. *)
Definition got_truthy (o : option JsonValue) : bool :=
  match o with
  | Some v => value_truthy v
  | None => false
  end.

Definition payload_truthy (p : JsonPayload) : bool :=
  match p with
  | JObject fields => negb (length fields =? 0)
  | JNotObject b => b
  end.

(** [data.get(key)]. *)
Definition payload_get (p : JsonPayload) (key : string) : Exc (option JsonValue) :=
  match p with
  | JObject fields => Ret (dict_get fields key)
  | JNotObject _ => Raise AttributeError
  end.

(** [pd.DataFrame(value)]. *)
Definition pd_DataFrame (v : JsonValue) : Exc (DataFrame F) :=
  match v with
  | JRecords rows => Ret (DataFrame_of_records rows)
  | _ => Raise (ValueError "DataFrame constructor not properly called!")
  end.

Definition is_NOT_FOUND (o : option JsonValue) : bool :=
  match o with
  | Some (JString s) => String.eqb s "NOT_FOUND"
  | _ => false
  end.

Definition polygon_url (ticker start_date end_date : string) (multiplier : Z)
    (timespan : string) : string :=
  "https://api.polygon.io/v2/aggs/ticker/" +:+ ticker +:+ "/range/"
  +:+ pretty multiplier +:+ "/" +:+ timespan +:+ "/" +:+ start_date
  +:+ "/" +:+ end_date.

(** [requests_get url params] is what [requests.get] does in the run at
    hand. *)
Definition get_polygon_data
    (requests_get : string -> list (string * string) -> Exc Response)
    (ticker start_date end_date api_key : string) (multiplier : Z)
    (timespan : string) : Exc (option (DataFrame F)) :=
  let url := polygon_url ticker start_date end_date multiplier timespan in
  let params :=
    [("apiKey", api_key); ("sort", "asc"); ("limit", pretty 50000%Z)] in
  try_except
    (response ← requests_get url params;
     _ ← raise_for_status response;
     data ← json response;
     (* data and data.get('results') *)
     results ← (if payload_truthy data then payload_get data "results"
                else mret None);
     match results with
     | Some v =>
         if value_truthy v then
           df ← pd_DataFrame v;
           let df := rename df
             [("o", "Open"); ("h", "High"); ("l", "Low"); ("c", "Close");
              ("v", "Volume"); ("t", "Timestamp"); ("n", "Transactions")] in
           stamps ← getitem df "Timestamp";
           stamps ← to_datetime stamps;
           let df := setitem df "Timestamp" stamps in
           df ← set_index df "Timestamp";
           df ← select df ["Open"; "High"; "Low"; "Close"; "Volume"];
           mret (Some df)
         else
           status ← payload_get data "status";
           again ← (if is_NOT_FOUND status then mret None
                    else payload_get data "results");
           if is_NOT_FOUND status || negb (got_truthy again)
           then mret None else mret None
     | None =>
         status ← payload_get data "status";
         again ← (if is_NOT_FOUND status then mret None
                  else payload_get data "results");
         if is_NOT_FOUND status || negb (got_truthy again)
         then mret None else mret None
     end)
    [(is_RequestException, fun e => Ret None);
     (is_Exception, fun e => Ret None)].

End Adapters.
Arguments JsonValue F : clear implicits.
Arguments JsonPayload F : clear implicits.
Arguments Response F : clear implicits.
End data_collection.

(** ** driver.py *)

Module driver.

Definition DATA_DIR : string := "collected_data".

(** [s.startswith('/')] and [s.endswith('/')]. *)
Definition startswith_sep (s : string) : bool :=
  match s with
  | String a _ => Ascii.eqb a "/"
  | EmptyString => false
  end.

Fixpoint endswith_sep (s : string) : bool :=
  match s with
  | EmptyString => false
  | String a EmptyString => Ascii.eqb a "/"
  | String _ s' => endswith_sep s'
  end.

(** [os.path.join(path, b)] of [posixpath]: an absolute second component
    discards the first; otherwise the two are joined by one separator,
    unless the first is empty or already ends with one. *)
Definition os_path_join (path b : string) : string :=
  if startswith_sep b then b
  else if String.eqb path "" || endswith_sep path then path +:+ b
  else path +:+ "/" +:+ b.

Definition SP500_TICKERS : list string :=
  ["MMM"; "AOS"; "ABT"; "ABBV"; "ACN"; "ADBE"; "AMD"; "AES"; "AFL"; "A"; "APD";
   "ABNB"; "AKAM"; "ALB"; "ARE"; "ALGN"; "ALLE"; "LNT"; "ALL"; "GOOGL"; "GOOG";
   "MO"; "AMZN"; "AMCR"; "AEE"; "AEP"; "AXP"; "AIG"; "AMT"; "AWK"; "AMP"; "AME";
   "AMGN"; "APH"; "ADI"; "ANSS"; "AON"; "APA"; "APO"; "AAPL"; "AMAT"; "APTV";
   "ARCH"; "ARNC"; "ATO"; "ATVI"; "ADSK"; "AZO"; "AVB"; "AVY"; "BKR"; "BAX";
   "BDX"; "BRK.B"; "BBY"; "BIO"; "BIIB"; "BLK"; "BX"; "BAC"; "BBWI"; "BA";
   "BK"; "BN"; "BXP"; "BSX"; "BMY"; "AVGO"; "BR"; "BRO"; "BF.B"; "BF.A";
   "CPB"; "COF"; "CAH"; "KMX"; "CCL"; "CARR"; "CAT"; "CBOE"; "CDNS"; "CDW";
   "CE"; "CNC"; "CNP"; "CDAY"; "CERN"; "CF"; "CRL"; "SCHW"; "CHTR"; "CVX";
   "CMG"; "CB"; "CHD"; "CI"; "CINF"; "CTAS"; "C"; "CLX"; "CME"; "CMS"; "KO";
   "CTSH"; "CL"; "CMCSA"; "CAG"; "COP"; "STZ"; "CEG"; "COR"; "CSGP"; "CMA";
   "CSC"; "CMCSA"; "CACC"; "CSX"; "CTLT"; "CVS"; "DHR"; "DRI"; "DVA"; "DE";
   "DAL"; "XRAY"; "DVN"; "DXCM"; "FANG"; "DLR"; "DFS"; "DIS"; "DG"; "DLTR";
   "D"; "DPZ"; "DOV"; "DOW"; "DTE"; "DUK"; "DD"; "EMN"; "ETN"; "EBAY"; "ECL";
   "EIX"; "EW"; "EA"; "EMR"; "ENPH"; "ETR"; "EOG"; "EQIX"; "EQT"; "ES"; "ESS";
   "ELV"; "ETSY"; "EVRG"; "ESRX"; "EXC"; "EXPE"; "EXPD"; "XOM"; "FDS"; "FAST";
   "FRT"; "FDX"; "FE"; "FIS"; "FITB"; "FMC"; "F"; "FTNT"; "FTV"; "FOXA"; "FOX";
   "BEN"; "FCX"; "GRMN"; "IT"; "GD"; "GE"; "GIS"; "GM"; "GPC"; "GILD"; "GLW";
   "GOOG"; "GOOGL"; "GPN"; "GPS"; "GRMN"; "GS"; "HAL"; "HBI"; "HAS"; "HCA";
   "PEAK"; "HSIC"; "HES"; "HWM"; "HP"; "HST"; "HRL"; "HLT"; "HOLX"; "HD";
   "HON"; "HPE"; "HPQ"; "HUM"; "HII"; "IBM"; "IEX"; "IDXX"; "IFF"; "ILMN";
   "INCY"; "IR"; "INTC"; "ICE"; "IBM"; "IP"; "IPG"; "INTU"; "ISRG"; "IVZ";
   "IRM"; "JBL"; "JKHY"; "J"; "JPM"; "JNJ"; "KSU"; "K"; "KVUE"; "KMB"; "KMI";
   "KLAC"; "KSS"; "KR"; "LHX"; "LRCX"; "LW"; "LVS"; "LEG"; "LEN"; "LLY"; "LNC";
   "LIN"; "LYV"; "LKQ"; "LMT"; "L"; "LOW"; "LULU"; "MAR"; "MMC"; "MLM"; "MAS";
   "MA"; "MKC"; "MCD"; "MCK"; "MDT"; "MRK"; "META"; "MET"; "MIK"; "MSFT";
   "MCO"; "MPC"; "MDLZ"; "MNST"; "MORG"; "MSI"; "MS"; "MOS"; "MSCI"; "NDAQ";
   "NEE"; "NEM"; "NFLX"; "NWSA"; "NWS"; "NI"; "NKE"; "NOC"; "NLOK"; "NCLH";
   "NRG"; "NUE"; "NVDA"; "NVR"; "NXPI"; "ORLY"; "OXY"; "ODFL"; "OMC"; "OKE";
   "ORCL"; "OGN"; "OTIS"; "PCAR"; "PKG"; "PANW"; "PARA"; "PAYC"; "PAYX"; "PCG";
   "PEP"; "PFE"; "PM"; "PSX"; "PNR"; "PBCT"; "PGR"; "PLD"; "PNC"; "POOL";
   "PPG"; "PPL"; "PFG"; "PG"; "PGR"; "PRU"; "PEG"; "PSA"; "PHM"; "PVH"; "QRVO";
   "PWR"; "QCOM"; "DGX"; "RL"; "RJF"; "RTX"; "O"; "REGN"; "RF"; "RSG"; "RMD";
   "RHI"; "ROK"; "ROL"; "ROP"; "ROST"; "RCL"; "SPGI"; "CRM"; "SBAC"; "SLB";
   "STX"; "SEE"; "SRE"; "NOW"; "SHW"; "SPG"; "SWKS"; "SJM"; "SNA"; "SO"; "LUV";
   "SWK"; "SBUX"; "STT"; "STE"; "SYK"; "SYF"; "SNPS"; "SYY"; "TMUS"; "TROW";
   "TTWO"; "TPR"; "TGT"; "TEL"; "TDY"; "TFX"; "TXN"; "TXT"; "TMO"; "TJX"; "TSLA";
   "TXN"; "TMO"; "TJX"; "TSLA"; "TRV"; "TRMB"; "TFC"; "TWTR"; "TYL"; "UDR";
   "ULTA"; "UNP"; "UAL"; "UNH"; "UPS"; "URI"; "UHS"; "VLO"; "VAR"; "VTR"; "VRSK";
   "VRSN"; "V"; "VNO"; "VMC"; "WAB"; "WBA"; "WMT"; "WBD"; "WM"; "WAT"; "WEC";
   "WFC"; "WELL"; "WST"; "WDC"; "WRK"; "WY"; "WHR"; "WMB"; "WLTW"; "WYNN"; "XEL";
   "XLNX"; "XYL"; "YUM"; "ZBH"; "ZION"; "ZTS"].

(** *** concurrent.futures *)

(** A future is known by its identifier; the executor remembers, for each
    future it handed out, how the submitted call ends. The thread that runs
    a call stores a raised exception in the future instead of dying of it,
    and [future.result()] hands the stored exit back. *)
Record Executor : Type := {
  max_workers_of : Z;
  calls : gmap nat (Exc bool)
}.

(** [ThreadPoolExecutor(max_workers=n)]. *)
Definition ThreadPoolExecutor (max_workers : Z) : Exc Executor :=
  if (max_workers <=? 0)%Z
  then Raise (ValueError "max_workers must be greater than 0")
  else Ret {| max_workers_of := max_workers; calls := ∅ |}.

(** The identifier the next [submit] hands out. *)
Definition next_future (ex : Executor) : nat := size (calls ex).

(** [executor.submit(fn, ...)]: a fresh future. [call] is the exit of the
    submitted call, given the future it runs under. *)
Definition submit (ex : Executor) (call : nat -> Exc bool) : Executor * nat :=
  let fut := next_future ex in
  ({| max_workers_of := max_workers_of ex;
      calls := <[fut := call fut]> (calls ex) |}, fut).

(** [future.result()]. *)
Definition result (ex : Executor) (fut : nat) : Exc bool :=
  match calls ex !! fut with
  | Some r => r
  | None => Raise (RuntimeError "unknown future")
  end.

(** [as_completed(fs)] yields every future of [fs] once, in the order the
    threads finish (futures already finished come first, in the iteration
    order of a set). Which order that is depends on timing and on the
    number of workers; the schedule [sched] stands for it: its k-th number
    picks, among the futures not yet yielded, the one that is yielded
    k-th. *)
Fixpoint yield_in_order (fuel : nat) (pending : list nat) (sched : list nat)
    : list nat :=
  match fuel with
  | 0 => []
  | S fuel' =>
      let k := hd 0 sched `mod` length pending in
      match pending !! k with
      | Some fut => fut :: yield_in_order fuel' (delete k pending) (tl sched)
      | None => []
      end
  end.

Definition as_completed (fs : list nat) (sched : list nat) : list nat :=
  yield_in_order (length fs) fs sched.

(** *** The batch: lines 108-135 of main *)

(** What one run leaves behind. [completed] is the trace of the collection
    loop: the futures in the order [as_completed] yielded them, each with
    its ticker and with the exit of its call. [manifest] is the text written
    to [collected_data/failed_tickers.txt], or [None] when the file is not
    written. *)
Record Report : Type := {
  completed : list (nat * string * Exc bool);
  failed_tickers : list string;
  manifest : option string
}.

(** The dict comprehension of lines 111-118: one [submit] per element of
    [tickers], in order, each future keyed to its ticker. *)
Fixpoint submit_all (fn : nat -> string -> Exc bool) (tickers : list string)
    (ex : Executor) (future_to_ticker : gmap nat string)
    : Executor * gmap nat string :=
  match tickers with
  | [] => (ex, future_to_ticker)
  | ticker :: rest =>
      let '(ex', fut) := submit ex (fun fut => fn fut ticker) in
      submit_all fn rest ex' (<[fut := ticker]> future_to_ticker)
  end.

(** Iterating a dict gives its keys; [as_completed] makes a set of them
    first, so their order in the dict plays no role beyond what the
    schedule picks. *)
Definition dict_keys (future_to_ticker : gmap nat string) : list nat :=
  (map_to_list future_to_ticker).*1.

(** The loop of lines 121-128 over the futures in the order given. The
    value [future.result()] returns is dropped; only an exception makes the
    loop record the ticker. *)
Fixpoint collect (ex : Executor) (future_to_ticker : gmap nat string)
    (order : list nat) (acc : Report) : Exc Report :=
  match order with
  | [] => Ret acc
  | future :: rest =>
      ticker ← match future_to_ticker !! future with
               | Some t => Ret t
               | None => Raise (KeyError "future")
               end;
      failed ← try_except
                 (_ ← result ex future; mret (failed_tickers acc))
                 [(is_Exception, fun exc => Ret (failed_tickers acc ++ [ticker]))];
      collect ex future_to_ticker rest
        {| completed := completed acc ++ [(future, ticker, result ex future)];
           failed_tickers := failed;
           manifest := manifest acc |}
  end.

(** Lines 108-135 for an arbitrary submitted callable [fn]: the pool, the
    collection loop and the manifest. *)
Definition run_batch (fn : nat -> string -> Exc bool) (tickers : list string)
    (max_workers : Z) (sched : list nat) : Exc Report :=
  executor ← ThreadPoolExecutor max_workers;
  let '(executor, future_to_ticker) := submit_all fn tickers executor ∅ in
  report ← collect executor future_to_ticker
             (as_completed (dict_keys future_to_ticker) sched)
             {| completed := []; failed_tickers := []; manifest := None |};
  match failed_tickers report with
  | [] => Ret report
  | _ :: _ =>
      Ret {| completed := completed report;
             failed_tickers := failed_tickers report;
             manifest := Some (str_join newline (failed_tickers report)) |}
  end.

(** The two kinds of exit a task can report, and the pairs the batch
    produces. *)
Inductive OutcomeKind : Type := Persisted | Failed.

Definition kind_of (r : Exc bool) : OutcomeKind :=
  match r with
  | Ret true => Persisted
  | _ => Failed
  end.

Definition outcomes (r : Report) : list (string * OutcomeKind) :=
  map (fun c => (snd (fst c), kind_of (snd c))) (completed r).

(** The loop's record for one future: the future, its ticker and the exit
    of its call. *)
Definition slot (fn : nat -> string -> Exc bool) (tickers : list string)
    (fut : nat) : nat * string * Exc bool :=
  let ticker := default "" (tickers !! fut) in (fut, ticker, fn fut ticker).

(** The records of a run that makes the calls one after the other, in
    universe order: what the batch is compared with. *)
Definition sequential (fn : nat -> string -> Exc bool) (tickers : list string)
    : list (nat * string * Exc bool) :=
  imap (fun fut ticker => (fut, ticker, fn fut ticker)) tickers.

Definition ticker_of (c : nat * string * Exc bool) : string := snd (fst c).

Definition future_of (c : nat * string * Exc bool) : nat := fst (fst c).

(** [future.result()] raised. *)
Definition raised (c : nat * string * Exc bool) : bool := negb (returned (snd c)).

(** The call reported a failure, by returning [False] or by raising. *)
Definition failed (c : nat * string * Exc bool) : bool :=
  match kind_of (snd c) with Failed => true | Persisted => false end.

(** The tickers whose own task failed, in universe order: what the
    manifest is specified to list. *)
Definition failed_in_universe_order (r : Report) (tickers : list string)
    : list string :=
  map snd
    (List.filter
       (fun it => existsb (fun c => (future_of c =? fst it) && failed c)
                    (completed r))
       (imap (fun i t => (i, t)) tickers)).

(** The text of the manifest for a list of tickers, if it is written. *)
Definition manifest_for (tickers : list string) : option string :=
  match tickers with
  | [] => None
  | _ :: _ => Some (str_join newline tickers)
  end.

(** *** collect_data_for_ticker *)

(** [os.path.join(DATA_DIR, f"{ticker}_yahoo_finance.csv")]. *)
Definition yahoo_finance_file_path (ticker : string) : string :=
  os_path_join DATA_DIR (ticker +:+ "_yahoo_finance.csv").

Section Driver.
Context {F : Type} `{Float64 F}.

(** [adapter] is [dc.get_yahoo_finance_data] and [to_csv path df] is
    [df.to_csv(path, index=True)], both as they behave in the run at hand.
    The [finally] clause sleeps, which changes no value. *)
Definition collect_data_for_ticker
    (adapter : string -> string -> string -> Exc (option (DataFrame F)))
    (to_csv : string -> DataFrame F -> Exc unit)
    (ticker start_date end_date : string) : Exc bool :=
  try_finally
    (try_except
       (yahoo_finance_df ← adapter ticker start_date end_date;
        match yahoo_finance_df with
        | Some df =>
            _ ← to_csv (yahoo_finance_file_path ticker) df;
            mret true
        | None => mret false
        end)
       [(is_Exception, fun exc => Ret false)])
    (Ret tt).

(** *** main *)

(** The world one task runs in: what the provider and the file system do
    for the call made under a given future. *)
Record TaskWorld : Type := {
  yf_download : string -> string -> string -> Exc (DataFrame F);
  to_csv : string -> DataFrame F -> Exc unit
}.

(** The call [main] submits for each ticker. *)
Definition task (world : nat -> TaskWorld) (start_date end_date : string)
    (fut : nat) (ticker : string) : Exc bool :=
  collect_data_for_ticker
    (data_collection.get_yahoo_finance_data (yf_download (world fut)))
    (to_csv (world fut)) ticker start_date end_date.

(** [main], with the ticker universe (the module constant [SP500_TICKERS]
    in the source) and the parsed arguments as parameters. *)
Definition main (tickers : list string) (start_date end_date : string)
    (max_workers : Z) (world : nat -> TaskWorld) (sched : list nat)
    : Exc Report :=
  match tickers with
  | [] => Ret {| completed := []; failed_tickers := []; manifest := None |}
  | _ :: _ =>
      run_batch (task world start_date end_date) tickers max_workers sched
  end.

End Driver.
End driver.

(** ** visualizations.py *)

Module visualizations.
Section Portfolio.
(** Money amounts are float64 in the source; the fold only adds them, so
    the value type and its addition are parameters. Dates are timestamps. *)
Context {V : Type} (add : V -> V -> V).

(** A row of the processed ledger. *)
Record Trade : Type := {
  Ticker : string;
  Entry_Date : Z;
  Exit_Date : Z;
  Entry_Price : V;
  Exit_Price : V;
  PL_pct : V;
  PL_dollars : V
}.

(** A row of the frame the function returns. *)
Record Point : Type := {
  DATE : Z;
  VALUE : V
}.




(** The order the returned frame is in. *)
Definition by_DATE (p q : Point) : Prop := (DATE p <= DATE q)%Z.

(** The loop over [df.iterrows()]: the running capital after each trade,
    stamped with the trade's exit date. *)
Fixpoint iterrows (rows : list Trade) (current_capital : V) : list Point :=
  match rows with
  | [] => []
  | row :: rest =>
      let current_capital := add current_capital (PL_dollars row) in
      {| DATE := Exit_Date row; VALUE := current_capital |}
        :: iterrows rest current_capital
  end.





End Portfolio.
Arguments Trade V : clear implicits.
Arguments Point V : clear implicits.
End visualizations.

(** ** data_collection.py: Google Trends and StockTwits *)

Module data_collection_feeds.

(** *** Decoded JSON *)

#[local] Set Warnings "-register-all".

(** What [response.json()] returns: Python values built from [None],
    booleans, numbers, strings, lists and dicts. Numbers are integers
    here; objects are dicts in insertion order with distinct keys. *)
Inductive Json : Type :=
| JNone
| JBoolean (b : bool)
| JInt (n : Z)
| JText (s : string)
| JList (items : list Json)
| JDict (fields : list (string * Json)).

Record HttpResponse : Type := {
  http_status : Z;
  http_json : Exc Json
}.

(** [response.raise_for_status()]. *)
Definition http_raise_for_status (r : HttpResponse) : Exc unit :=
  if ((400 <=? http_status r) && (http_status r <? 600))%Z
  then Raise (HTTPError (http_status r))
  else Ret tt.

(** Truth value of a Python value. *)
Definition truthy (v : Json) : bool :=
  match v with
  | JNone => false
  | JBoolean b => b
  | JInt n => negb (n =? 0)%Z
  | JText s => negb (String.eqb s "")
  | JList items => negb (length items =? 0)
  | JDict fields => negb (length fields =? 0)
  end.

(** [v.get(key, default)]: only a dict has [get]. A key that is present
    with the value [None] gives [None], not the default. *)
Definition get_or (v : Json) (key : string) (default : Json) : Exc Json :=
  match v with
  | JDict fields =>
      Ret match dict_get fields key with
          | Some x => x
          | None => default
          end
  | _ => Raise AttributeError
  end.

(** [v.get(key)]. *)
Definition get (v : Json) (key : string) : Exc Json := get_or v key JNone.

Definition is_text (key : string) (v : Json) : bool :=
  match v with
  | JText s => String.eqb s key
  | _ => false
  end.

(** [key in v] for a string [key]: a key of a dict, an element of a list,
    a substring of a string; numbers and booleans are not containers. *)
Definition contains (v : Json) (key : string) : Exc bool :=
  match v with
  | JDict fields => Ret (dict_mem fields key)
  | JList items => Ret (existsb (is_text key) items)
  | JText s =>
      Ret match String.index 0 key s with Some _ => true | None => false end
  | JNone | JBoolean _ | JInt _ => Raise TypeError
  end.

(** [v[key]] for a string [key]. *)
Definition subscript (v : Json) (key : string) : Exc Json :=
  match v with
  | JDict fields =>
      match dict_get fields key with
      | Some x => Ret x
      | None => Raise (KeyError key)
      end
  | _ => Raise TypeError
  end.

(** [for x in v]: the items of a list, the keys of a dict, the characters
    of a string. *)
Definition iterate (v : Json) : Exc (list Json) :=
  match v with
  | JList items => Ret items
  | JDict fields => Ret (map (fun kv => JText (fst kv)) fields)
  | JText s => Ret (map (fun a => JText (String a "")) (list_ascii_of_string s))
  | JNone | JBoolean _ | JInt _ => Raise TypeError
  end.

(** *** StockTwits *)

(** The dict built for one message. *)
Record Message : Type := {
  msg_id : Json;
  msg_body : Json;
  msg_created_at : Json;
  msg_user_username : Json;
  msg_user_id : Json;
  msg_symbols : list Json;
  msg_sentiment : Json
}.

(** The dict display of lines 170-178, its values evaluated in order. *)
Definition message_info (msg : Json) : Exc Message :=
  id ← get msg "id";
  body ← get msg "body";
  created_at ← get msg "created_at";
  user ← get_or msg "user" (JDict []);
  user_username ← get user "username";
  user ← get_or msg "user" (JDict []);
  user_id ← get user "id";
  symbols ← get_or msg "symbols" (JList []);
  symbols ← iterate symbols;
  symbols ← mapM (fun s => get s "symbol") symbols;
  entities ← get_or msg "entities" (JDict []);
  sentiment ← get_or entities "sentiment" (JDict []);
  sentiment ← get sentiment "basic";
  mret {| msg_id := id; msg_body := body; msg_created_at := created_at;
          msg_user_username := user_username; msg_user_id := user_id;
          msg_symbols := symbols; msg_sentiment := sentiment |}.

Definition stocktwits_url (ticker : string) : string :=
  "https://api.stocktwits.com/api/2/streams/symbol/" +:+ ticker +:+ ".json".

(** [requests_get url params] is what [requests.get] does in the run at
    hand. The list [messages] is local to the [try]: when a message
    raises, what was appended so far is lost and the handler returns an
    empty list. *)
Definition get_stocktwits_data
    (requests_get : string -> list (string * string) -> Exc HttpResponse)
    (ticker : string) (limit : Z) : Exc (list Message) :=
  let url := stocktwits_url ticker in
  let params := [("limit", pretty (Z.min limit 200))] in
  try_except
    (response ← requests_get url params;
     _ ← http_raise_for_status response;
     data ← http_json response;
     (* data and 'messages' in data *)
     found ← (if truthy data then contains data "messages" else Ret false);
     if found : bool then
       listed ← subscript data "messages";
       listed ← iterate listed;
       mapM message_info listed
     else Ret [])
    [(is_RequestException, fun e => Ret []);
     (is_Exception, fun e => Ret [])].

(** *** Google Trends *)

Section Trends.
Context {F : Type} `{Float64 F}.

(** [df.drop(columns=labels)], for labels that are columns of [df]. *)
Definition drop_columns (df : DataFrame F) (labels : list string) : DataFrame F :=
  {| df_index := df_index df;
     df_columns :=
       List.filter (fun kv => negb (existsb (String.eqb (fst kv)) labels))
         (df_columns df) |}.

(** [interest_over_time keyword timeframe] stands for the three pytrends
    calls of lines 129-131 ([TrendReq], [build_payload],
    [interest_over_time]): the frame the last one returns, or the
    exception the first failing one raises. *)
Definition get_google_trends_data
    (interest_over_time : string -> string -> Exc (DataFrame F))
    (keyword timeframe : string) : Exc (option (DataFrame F)) :=
  try_except
    (data ← interest_over_time keyword timeframe;
     if negb (empty data) && has_column data keyword then
       let data :=
         if has_column data "isPartial"
         then drop_columns data ["isPartial"] else data in
       mret (Some data)
     else mret None)
    [(is_Exception, fun e => Ret None)].

End Trends.
End data_collection_feeds.

(** ** visualizations.py: the benchmark and the trade markers *)

Module visualizations_benchmark.
Import visualizations.

(** [IndexError] beside the exceptions of [Py]. *)
Inductive Error : Type :=
| IndexError
| Builtin (e : Exception).

Inductive Attempt (A : Type) : Type :=
| Got (a : A)
| Thrown (e : Error).
Arguments Got {A} a.
Arguments Thrown {A} e.

#[export] Instance Attempt_ret : MRet Attempt := fun _ a => Got a.
#[export] Instance Attempt_bind : MBind Attempt := fun _ _ k m =>
  match m with
  | Got a => k a
  | Thrown e => Thrown e
  end.

Section Benchmark.
(** Prices and money are float64; the functions multiply, divide and
    compare them with 0, so these operations are parameters. A NaN is
    neither [> 0] nor [<= 0]. *)
Context {V : Type} (add mul div : V -> V -> V) (gt0 le0 : V -> bool).
Context (ten_thousand : V).

(** A column of the SPY frame: timestamps or numbers. *)
Inductive SpyColumn : Type :=
| Stamps (ds : list Z)
| Floats (vs : list V).

(** [spy_df[col]]. *)
Definition spy_getitem (spy_df : list (string * SpyColumn)) (col : string)
    : Attempt SpyColumn :=
  match dict_get spy_df col with
  | Some c => Got c
  | None => Thrown (Builtin (KeyError col))
  end.

(** [series.iloc[0]]. *)
Definition iloc_first {A} (l : list A) : Attempt A :=
  match l with
  | x :: _ => Got x
  | [] => Thrown IndexError
  end.

(** The value of the list comprehension of lines 83-88 at one date [d]:
    the benchmark value of the last row, in frame order, dated [d] or
    earlier, or the initial capital when there is none. *)
Definition benchmark_at (spy_df : list (string * SpyColumn))
    (initial_capital : V) (d : Z) : Attempt V :=
  dates ← spy_getitem spy_df "DATE";
  match dates with
  | Floats _ => Thrown (Builtin TypeError)
  | Stamps ds =>
      let mask := map (fun x => (x <=? d)%Z) ds in
      if forallb negb mask then Got initial_capital
      else
        values ← spy_getitem spy_df "BENCHMARK_VALUE";
        match values with
        | Floats vs =>
            match last (map snd (List.filter fst (zip mask vs))) with
            | Some v => Got v
            | None => Thrown IndexError
            end
        | Stamps ts => Thrown (Builtin TypeError)
        end
  end.

(** [None] when the price column is missing; otherwise one point per date
    of the portfolio frame. The two columns added to [spy_df] stay in the
    caller's frame; only the returned frame is modelled. *)
Definition calculate_benchmark_value (spy_df : list (string * SpyColumn))
    (price_column : string) (portfolio_df : list (Point V))
    (initial_capital : V) : Attempt (option (list (Point V))) :=
  if negb (dict_mem spy_df price_column) then Got None
  else
    prices ← spy_getitem spy_df price_column;
    match prices with
    | Stamps ds =>
        initial_price ← iloc_first ds;
        Thrown (Builtin TypeError)
    | Floats ps =>
        initial_price ← iloc_first ps;
        let shares := div initial_capital initial_price in
        let spy_df :=
          pandas.dict_set spy_df "SHARES" (Floats (map (fun _ => shares) ps)) in
        shares_col ← spy_getitem spy_df "SHARES";
        prices ← spy_getitem spy_df price_column;
        match shares_col, prices with
        | Floats ss, Floats ps' =>
            let spy_df :=
              pandas.dict_set spy_df "BENCHMARK_VALUE"
                (Floats (zip_with mul ss ps')) in
            values ← mapM (fun p => benchmark_at spy_df initial_capital (DATE p))
                       portfolio_df;
            Got (Some (zip_with (fun p v => {| DATE := DATE p; VALUE := v |})
                          portfolio_df values))
        | _, _ => Thrown (Builtin TypeError)
        end
    end.

(** The data of the two marker traces of [create_plotly_chart], lines
    144-172: exit dates and running totals of the winning trades, exit
    dates and running totals of the losing ones. The running total starts
    from 10000.0, whatever capital the portfolio line started from. *)
Fixpoint marker_values (rows : list (Trade V)) (cumulative_pl : V)
    (winning losing : list V) : list V * list V :=
  match rows with
  | [] => (winning, losing)
  | row :: rest =>
      let cumulative_pl := add cumulative_pl (PL_dollars row) in
      if gt0 (PL_dollars row)
      then marker_values rest cumulative_pl (winning ++ [cumulative_pl]) losing
      else marker_values rest cumulative_pl winning (losing ++ [cumulative_pl])
  end.

Record Markers : Type := {
  winning_x : list Z;
  winning_y : list V;
  losing_x : list Z;
  losing_y : list V
}.

Definition trade_markers (ledger_df : list (Trade V)) : Markers :=
  let winning_trades := List.filter (fun t => gt0 (PL_dollars t)) ledger_df in
  let losing_trades := List.filter (fun t => le0 (PL_dollars t)) ledger_df in
  let '(winning_portfolio_values, losing_portfolio_values) :=
    marker_values ledger_df ten_thousand [] [] in
  {| winning_x := map Exit_Date winning_trades;
     winning_y := winning_portfolio_values;
     losing_x := map Exit_Date losing_trades;
     losing_y := losing_portfolio_values |}.

End Benchmark.
Arguments SpyColumn V : clear implicits.
Arguments Markers V : clear implicits.
End visualizations_benchmark.

(** ** Concrete providers, frames and ledgers *)

Module examples.
Import data_collection driver visualizations.

(** The real numbers as an idealised float64: no rounding and no NaN. A
    number of milliseconds converts to the stamp of its whole
    milliseconds. *)
#[export] Instance real_float64 : Float64 R := {|
  float_div := fun x y => Some (x / y)%R;
  float_log := fun x => Some (ln x);
  to_datetime_ms := fun x => Ret (Int_part x)
|}.

(** Two trading days, as [yf.download] delivers them. *)
Definition two_days : DataFrame R := {|
  df_index := LabelIndex (Some "Date") (Labels [Some 19724%Z; Some 19725%Z]);
  df_columns :=
    [("Open", Numeric [Some 99%R; Some 101%R]);
     ("High", Numeric [Some 102%R; Some 111%R]);
     ("Low", Numeric [Some 98%R; Some 100%R]);
     ("Close", Numeric [Some 100%R; Some 110%R]);
     ("Volume", Numeric [Some 5000%R; Some 6000%R])]
|}.

(** No rows: the ticker is unknown or has no data in the range. *)
Definition no_rows : DataFrame R := {|
  df_index := LabelIndex (Some "Date") (Labels []);
  df_columns :=
    [("Open", Numeric []); ("High", Numeric []); ("Low", Numeric []);
     ("Close", Numeric []); ("Volume", Numeric [])]
|}.

(** Rows, but no [Volume] column. *)
Definition no_volume : DataFrame R := {|
  df_index := LabelIndex (Some "Date") (Labels [Some 19724%Z; Some 19725%Z]);
  df_columns :=
    [("Open", Numeric [Some 99%R; Some 101%R]);
     ("High", Numeric [Some 102%R; Some 111%R]);
     ("Low", Numeric [Some 98%R; Some 100%R]);
     ("Close", Numeric [Some 100%R; Some 110%R])]
|}.

(** What the Yahoo adapter makes of [two_days]. *)
Definition two_days_normalized : DataFrame R := {|
  df_index := RangeIndex 2;
  df_columns :=
    [("DATE", Labels [Some 19724%Z; Some 19725%Z]);
     ("OPEN", Numeric [Some 99%R; Some 101%R]);
     ("HIGH", Numeric [Some 102%R; Some 111%R]);
     ("LOW", Numeric [Some 98%R; Some 100%R]);
     ("CLOSE", Numeric [Some 100%R; Some 110%R]);
     ("VOLUME", Numeric [Some 5000%R; Some 6000%R]);
     ("LOG_RETURNS", Numeric [None; Some (ln (110 / 100))%R])]
|}.

(** A provider that knows AAPL and MSFT, has no rows for BADTICKER, a
    truncated frame for NOVOL, and fails on the network for anything
    else. *)
Definition provider (ticker start_date end_date : string) : Exc (DataFrame R) :=
  if String.eqb ticker "AAPL" then Ret two_days
  else if String.eqb ticker "MSFT" then Ret two_days
  else if String.eqb ticker "BADTICKER" then Ret no_rows
  else if String.eqb ticker "NOVOL" then Ret no_volume
  else Raise RequestException.

Definition disk_ok (path : string) (df : DataFrame R) : Exc unit := Ret tt.

Definition disk_full (path : string) (df : DataFrame R) : Exc unit := Raise OSError.

Definition calm : nat -> TaskWorld := fun fut =>
  {| yf_download := provider; to_csv := disk_ok |}.

(** The same provider, but the write of the first task submitted fails. *)
Definition stormy : nat -> TaskWorld := fun fut =>
  {| yf_download := provider;
     to_csv := if fut =? 0 then disk_full else disk_ok |}.

(** One page of Polygon aggregates. *)
Definition bars : Response R := {|
  status_code := 200%Z;
  json := Ret (JObject
    [("status", JString "OK");
     ("results", JRecords
        [[("v", Some 5000%R); ("o", Some 99%R); ("c", Some 100%R);
          ("h", Some 102%R); ("l", Some 98%R); ("t", Some 1704085200000%R);
          ("n", Some 42%R)]])])
|}.

Definition polygon (url : string) (params : list (string * string))
    : Exc (Response R) := Ret bars.




End examples.

(** ** More concrete inputs, and the vocabulary of the later statements *)

Module fixtures.
Import data_collection driver visualizations examples.
Import data_collection_feeds visualizations_benchmark.

(** The keys of one aggregate bar, as Polygon documents them. *)
Definition polygon_bar_keys : list string :=
  ["v"; "vw"; "o"; "c"; "h"; "l"; "t"; "n"].

(** The renaming of line 91. *)
Definition polygon_mapping : list (string * string) :=
  [("o", "Open"); ("h", "High"); ("l", "Low"); ("c", "Close");
   ("v", "Volume"); ("t", "Timestamp"); ("n", "Transactions")].

(** The column of a key over the records of a page: NaN where a record
    lacks the key. *)
Definition bar_column {F : Type} (rows : list (list (string * option F)))
    (key : string) : Series F :=
  Numeric (map (fun r => mjoin (dict_get r key)) rows).

(** Two bars, the second without a transaction count. *)
Definition two_bars : list (list (string * option R)) :=
  [[("v", Some 5000%R); ("o", Some 99%R); ("c", Some 100%R);
    ("h", Some 102%R); ("l", Some 98%R); ("t", Some 1704085200000%R);
    ("n", Some 42%R)];
   [("v", Some 6000%R); ("o", Some 101%R); ("c", Some 110%R);
    ("h", Some 111%R); ("l", Some 100%R); ("t", Some 1704171600000%R)]].

Definition two_bars_page : Response R := {|
  status_code := 200%Z;
  json := Ret (JObject [("status", JString "OK"); ("results", JRecords two_bars)])
|}.

(** *** StockTwits *)

(** [v.get(key)] where [v] is a dict, and [None] where it is not: the
    value a well-formed message has under a key. *)
Definition field (v : Json) (key : string) : Json :=
  match v with
  | JDict fields => default JNone (dict_get fields key)
  | _ => JNone
  end.

Definition is_dict (v : Json) : bool :=
  match v with JDict _ => true | _ => false end.

(** The key is absent, or its value passes the test. *)
Definition absent_or (test : Json -> bool) (fields : list (string * Json))
    (key : string) : bool :=
  match dict_get fields key with
  | None => true
  | Some v => test v
  end.

(** A message every lookup of [message_info] goes through on: a dict
    whose user, if present, is a dict, whose symbols, if present, are a
    list of dicts, and whose entities, if present, are a dict with a
    sentiment that is absent or a dict. *)
Definition plain_message (msg : Json) : bool :=
  match msg with
  | JDict fields =>
      absent_or is_dict fields "user"
      && absent_or (fun v => match v with
                             | JList items => forallb is_dict items
                             | _ => false
                             end) fields "symbols"
      && absent_or (fun v => match v with
                             | JDict entities => absent_or is_dict entities "sentiment"
                             | _ => false
                             end) fields "entities"
  | _ => false
  end.

Definition items_of (v : Json) : list Json :=
  match v with JList items => items | _ => [] end.

(** What [message_info] makes of a plain message. *)
Definition summary (msg : Json) : Message := {|
  msg_id := field msg "id";
  msg_body := field msg "body";
  msg_created_at := field msg "created_at";
  msg_user_username := field (field msg "user") "username";
  msg_user_id := field (field msg "user") "id";
  msg_symbols := map (fun s => field s "symbol") (items_of (field msg "symbols"));
  msg_sentiment := field (field (field msg "entities") "sentiment") "basic"
|}.

Definition bullish : Json :=
  JDict [("id", JInt 1); ("body", JText "to the moon");
         ("created_at", JText "2024-01-02T15:00:00Z");
         ("user", JDict [("id", JInt 7); ("username", JText "ann")]);
         ("symbols", JList [JDict [("symbol", JText "AAPL")]]);
         ("entities", JDict [("sentiment", JDict [("basic", JText "Bullish")])])].

(** A message without a sentiment, as the API sends it. *)
Definition unrated : Json :=
  JDict [("id", JInt 2); ("body", JText "earnings tomorrow");
         ("created_at", JText "2024-01-02T15:01:00Z");
         ("user", JDict [("id", JInt 8); ("username", JText "bob")]);
         ("symbols", JList [JDict [("symbol", JText "AAPL")]]);
         ("entities", JDict [("sentiment", JNone)])].

(** A message with no entities at all. *)
Definition bare : Json :=
  JDict [("id", JInt 3); ("body", JText "hello")].

Definition stream (messages : list Json) (url : string)
    (params : list (string * string)) : Exc HttpResponse :=
  Ret {| http_status := 200;
         http_json := Ret (JDict [("response", JDict [("status", JInt 200)]);
                                  ("messages", JList messages)]) |}.

(** *** Google Trends *)

(** Thirteen weeks cut to two, with the flag column pytrends adds. *)
Definition interest : DataFrame R := {|
  df_index := LabelIndex (Some "date") (Labels [Some 19724%Z; Some 19731%Z]);
  df_columns :=
    [("AAPL", Numeric [Some 61%R; Some 74%R]);
     ("isPartial", Numeric [Some 0%R; Some 1%R])]
|}.

Definition trends (keyword timeframe : string) : Exc (DataFrame R) :=
  if String.eqb keyword "AAPL" then Ret interest
  else Raise (RuntimeError "The request failed: Google returned a response with code 429").

(** *** The benchmark *)

(** The benchmark values of the rows dated [d] or earlier, in frame
    order. *)
Definition rows_until {V : Type} (ds : list Z) (vs : list V) (d : Z) : list V :=
  map snd (List.filter fst (zip (map (fun x => (x <=? d)%Z) ds) vs)).

(** Three days of SPY, in whole dollars. *)
Definition spy : list (string * SpyColumn Z) :=
  [("DATE", Stamps [2; 5; 8]%Z);
   ("OPEN", Floats [100; 110; 120]%Z);
   ("CLOSE", Floats [101; 111; 121]%Z)].

(** A SPY file with a header and no rows. *)
Definition spy_without_rows : list (string * SpyColumn Z) :=
  [("DATE", Stamps []); ("OPEN", Floats [])].

Definition portfolio : list (Point Z) :=
  [{| DATE := 1; VALUE := 10000 |}; {| DATE := 5; VALUE := 10100 |};
   {| DATE := 9; VALUE := 10050 |}]%Z.

(** A winner, a loser and a trade that broke even. *)
Definition mixed : list (Trade Z) :=
  [ {| Ticker := "AAPL"; Entry_Date := 1; Exit_Date := 3;
       Entry_Price := 100; Exit_Price := 101; PL_pct := 1; PL_dollars := 100 |};
    {| Ticker := "MSFT"; Entry_Date := 4; Exit_Date := 10;
       Entry_Price := 100; Exit_Price := 99; PL_pct := -1; PL_dollars := -50 |};
    {| Ticker := "IBM"; Entry_Date := 11; Exit_Date := 12;
       Entry_Price := 100; Exit_Price := 100; PL_pct := 0; PL_dollars := 0 |}
  ]%Z.

(** The pairs a scatter trace draws. *)
Definition trace_points {V : Type} (xs : list Z) (ys : list V) : list (Point V) :=
  zip_with (fun x y => {| DATE := x; VALUE := y |}) xs ys.

(** The points of the trades that pass a test on their P/L, among the
    points [iterrows] builds for the ledger. *)
Definition points_where {V : Type} (test : V -> bool) (ledger : list (Trade V))
    (points : list (Point V)) : list (Point V) :=
  map snd (List.filter (fun tp => test (PL_dollars (fst tp))) (zip ledger points)).

End fixtures.

(** * Properties *)

Import data_collection driver visualizations examples.

(** ** The error monad *)

Lemma try_except_Exception_returns {A} (body : Exc A) (h : Exception -> Exc A) (a : A) :
  (forall e, h e = Ret a) ->
  exists a', try_except body [(is_Exception, h)] = Ret a'.
Proof.
  intros Hh. destruct body as [a'|e]; simpl; eauto.
Qed.

Lemma bind_Ret_inv {A B} (m : Exc A) (k : A -> Exc B) (b : B) :
  m ≫= k = Ret b -> exists a, m = Ret a /\ k a = Ret b.
Proof.
  destruct m as [a|e]; simpl; [eauto | discriminate].
Qed.

(** ** Dictionaries and frames *)

Lemma dict_mem_get {V} (d : list (string * V)) (k : string) :
  dict_mem d k = true -> exists v, dict_get d k = Some v.
Proof.
  unfold dict_mem. destruct (dict_get d k); [eauto | discriminate].
Qed.

Lemma dict_get_set {V} (d : list (string * V)) (k k' : string) (v : V) :
  dict_get (pandas.dict_set d k v) k' =
  if String.eqb k' k then Some v else dict_get d k'.
Proof.
  induction d as [|[k0 v0] d IH]; simpl.
  - destruct (String.eqb k' k); reflexivity.
  - destruct (String.eqb k k0) eqn:Ek; simpl.
    + apply String.eqb_eq in Ek. subst k0.
      destruct (String.eqb k' k); reflexivity.
    + destruct (String.eqb k' k0) eqn:Ek'.
      * apply String.eqb_eq in Ek'. subst k0.
        rewrite String.eqb_sym, Ek. reflexivity.
      * apply IH.
Qed.

Section FrameFacts.
Context {F : Type} `{Float64 F}.

Lemma shift1_lookup_S (xs : list (option F)) t x :
  xs !! S t = Some x ->
  take (length xs) (None :: xs) !! S t = xs !! t.
Proof.
  intros Hx. apply lookup_lt_Some in Hx.
  rewrite lookup_take_lt by lia. reflexivity.
Qed.

Lemma length_shift1 (xs : list (option F)) :
  length (take (length xs) (None :: xs)) = length xs.
Proof.
  rewrite length_take. simpl. lia.
Qed.

(** What a successful call of the Yahoo adapter returns, read off the
    frame the provider delivered. *)
Lemma get_yahoo_finance_data_Some yf_download ticker start_date end_date df :
  get_yahoo_finance_data yf_download ticker start_date end_date = Ret (Some df) ->
  exists raw data date open high low close volume,
    yf_download ticker start_date end_date = Ret raw /\
    empty raw = false /\
    reset_index raw = Ret data /\
    dict_get (df_columns data) "Close" = Some (Numeric close) /\
    df = {| df_index := df_index data;
            df_columns :=
              [("DATE", date); ("OPEN", open); ("HIGH", high); ("LOW", low);
               ("CLOSE", Numeric close); ("VOLUME", volume);
               ("LOG_RETURNS",
                Numeric (map nan_log
                           (zip_with nan_div close
                              (take (length close) (None :: close)))))] |}.
Proof.
  unfold get_yahoo_finance_data.
  destruct (yf_download ticker start_date end_date) as [raw|e] eqn:Hraw; simpl;
    [|discriminate].
  destruct (empty raw) eqn:Hempty; simpl; [discriminate|].
  destruct (reset_index raw) as [data|e] eqn:Hdata; simpl; [|discriminate].
  unfold has_column.
  destruct (dict_mem (df_columns data) "Date") eqn:HDate; simpl; [|discriminate].
  destruct (dict_mem (df_columns data) "Open") eqn:HOpen; simpl; [|discriminate].
  destruct (dict_mem (df_columns data) "High") eqn:HHigh; simpl; [|discriminate].
  destruct (dict_mem (df_columns data) "Low") eqn:HLow; simpl; [|discriminate].
  destruct (dict_mem (df_columns data) "Close") eqn:HClose; simpl; [|discriminate].
  destruct (dict_mem (df_columns data) "Volume") eqn:HVolume; simpl; [|discriminate].
  apply dict_mem_get in HDate as [date HDate], HOpen as [open HOpen],
    HHigh as [high HHigh], HLow as [low HLow], HClose as [close HClose],
    HVolume as [volume HVolume].
  unfold getitem at 1. rewrite HClose. simpl.
  destruct close as [close|ls]; simpl; [|discriminate].
  unfold select, getitem, setitem. simpl.
  rewrite !dict_get_set. simpl.
  rewrite HDate, HOpen, HHigh, HLow, HClose, HVolume. simpl.
  intros [= <-].
  exists raw, data, date, open, high, low, close, volume.
  repeat split; assumption || reflexivity.
Qed.

End FrameFacts.

(** ** The thread pool *)

(** Every future is yielded exactly once. *)
Lemma yield_in_order_Permutation fuel pending sched :
  length pending = fuel ->
  yield_in_order fuel pending sched ≡ₚ pending.
Proof.
  revert pending sched.
  induction fuel as [|fuel IH]; intros pending sched Hlen; simpl.
  - destruct pending; [reflexivity | discriminate].
  - assert (Hk : hd 0 sched `mod` length pending < length pending)
      by (apply Nat.mod_upper_bound; lia).
    destruct (lookup_lt_is_Some_2 _ _ Hk) as [fut Hfut].
    rewrite Hfut.
    etransitivity; [|symmetry; apply (delete_Permutation pending _ fut Hfut)].
    constructor. apply IH.
    rewrite length_delete by eauto. lia.
Qed.

Lemma as_completed_Permutation fs sched : as_completed fs sched ≡ₚ fs.
Proof.
  apply yield_in_order_Permutation. reflexivity.
Qed.

(** Every order of completion is the order of some schedule: the model
    leaves no interleaving out. *)
Lemma as_completed_any_order order : forall fs,
  order ≡ₚ fs -> exists sched, as_completed fs sched = order.
Proof.
  unfold as_completed.
  induction order as [|fut order IH]; intros fs Hperm.
  - apply Permutation_nil_l in Hperm. subst fs. exists []. reflexivity.
  - assert (Hin : fut ∈ fs) by (rewrite <- Hperm; left).
    apply list_elem_of_lookup in Hin as [k Hk].
    pose proof (lookup_lt_Some _ _ _ Hk) as Hlt.
    assert (Hrest : order ≡ₚ delete k fs).
    { apply (Permutation_cons_inv (a := fut)).
      rewrite Hperm. apply delete_Permutation. exact Hk. }
    destruct (IH _ Hrest) as [sched Hsched].
    exists (k :: sched).
    destruct fs as [|f0 fs']; [simpl in Hlt; lia|].
    cbn [length yield_in_order hd tl].
    rewrite Nat.mod_small by exact Hlt.
    rewrite Hk. f_equal.
    rewrite <- Hsched. f_equal.
    rewrite length_delete by eauto. simpl. lia.
Qed.

(** What the futures and the dict hold once every ticker is submitted. *)
Lemma submit_all_spec fn tickers : forall ex m (ts : list string),
  (forall i, m !! i = ts !! i) ->
  (forall i, calls ex !! i = fn i <$> ts !! i) ->
  size (calls ex) = length ts ->
  forall ex' m', submit_all fn tickers ex m = (ex', m') ->
  (forall i, m' !! i = (ts ++ tickers) !! i) /\
  (forall i, calls ex' !! i = fn i <$> (ts ++ tickers) !! i).
Proof.
  induction tickers as [|ticker rest IH]; intros ex m ts Hm Hcalls Hsize ex' m'.
  - simpl. intros [= <- <-]. rewrite app_nil_r. auto.
  - cbn [submit_all submit]. unfold next_future. rewrite Hsize.
    intros Hrun.
    rewrite (cons_middle ticker ts rest), app_assoc.
    eapply IH; [| | |exact Hrun]; cbn [calls].
    + intros i. destruct (decide (i = length ts)) as [->|Hne].
      * rewrite lookup_insert_eq, list_lookup_middle; reflexivity.
      * rewrite lookup_insert_ne by congruence. rewrite Hm.
        destruct (decide (i < length ts)).
        -- rewrite lookup_app_l by lia. reflexivity.
        -- rewrite !lookup_ge_None_2; [reflexivity | | lia].
           rewrite length_app. simpl. lia.
    + intros i. destruct (decide (i = length ts)) as [->|Hne].
      * rewrite lookup_insert_eq, list_lookup_middle; reflexivity.
      * rewrite lookup_insert_ne by congruence. rewrite Hcalls.
        destruct (decide (i < length ts)).
        -- rewrite lookup_app_l by lia. reflexivity.
        -- rewrite !lookup_ge_None_2; [reflexivity | | lia].
           rewrite length_app. simpl. lia.
    + rewrite map_size_insert_None.
      * rewrite Hsize, length_app. simpl. lia.
      * rewrite Hcalls, lookup_ge_None_2 by lia. reflexivity.
Qed.

(** The keys of the dict are the futures 0, ..., n-1, in some order. *)
Lemma dict_keys_Permutation (m : gmap nat string) (tickers : list string) :
  (forall i, m !! i = tickers !! i) ->
  dict_keys m ≡ₚ seq 0 (length tickers).
Proof.
  intros Hm. unfold dict_keys.
  apply NoDup_Permutation.
  - apply NoDup_fst_map_to_list.
  - apply NoDup_seq.
  - intros fut. rewrite list_elem_of_fmap, elem_of_seq. split.
    + intros [[i t] [-> Hin]]. apply elem_of_map_to_list in Hin.
      rewrite Hm in Hin. apply lookup_lt_Some in Hin. simpl. lia.
    + intros [_ Hlt]. simpl in Hlt.
      destruct (lookup_lt_is_Some_2 tickers fut Hlt) as [t Ht].
      exists (fut, t). split; [reflexivity|].
      apply elem_of_map_to_list. rewrite Hm. exact Ht.
Qed.

(** The collection loop runs to its end when every future is a key of the
    dict; it records the futures in the order given and lists the ticker
    of each future whose [result()] raised, in that order. *)
Lemma collect_spec ex (m : gmap nat string) order : forall acc,
  (forall fut, fut ∈ order -> is_Some (m !! fut)) ->
  collect ex m order acc =
  Ret {| completed :=
           completed acc
           ++ map (fun fut => (fut, default "" (m !! fut), result ex fut)) order;
         failed_tickers :=
           failed_tickers acc
           ++ map ticker_of
                (List.filter raised
                   (map (fun fut => (fut, default "" (m !! fut), result ex fut))
                      order));
         manifest := manifest acc |}.
Proof.
  induction order as [|fut order IH]; intros acc Hkeys.
  - simpl. rewrite !app_nil_r. destruct acc; reflexivity.
  - destruct (Hkeys fut) as [ticker Hticker]; [left|].
    cbn [collect]. rewrite Hticker. cbn [mbind Exc_bind].
    assert (Hrest : forall f, f ∈ order -> is_Some (m !! f))
      by (intros f Hf; apply Hkeys; right; exact Hf).
    destruct (result ex fut) as [b|e] eqn:Hres; cbn.
    + rewrite IH by exact Hrest. cbn.
      unfold raised at 2. cbn. rewrite Hres, Hticker. cbn.
      rewrite <- !app_assoc. reflexivity.
    + rewrite IH by exact Hrest. cbn.
      unfold raised at 2. cbn. rewrite Hres, Hticker. cbn.
      rewrite <- !app_assoc. reflexivity.
Qed.

Lemma slot_seq fn tickers :
  map (slot fn tickers) (seq 0 (length tickers)) = sequential fn tickers.
Proof.
  unfold sequential. apply list_eq. intros i.
  rewrite list_lookup_fmap, list_lookup_imap.
  destruct (tickers !! i) as [t|] eqn:Ht.
  - rewrite lookup_seq_lt by (eapply lookup_lt_Some; eauto).
    cbn. unfold slot. rewrite Ht. reflexivity.
  - rewrite lookup_seq_ge by (apply lookup_ge_None; exact Ht). reflexivity.
Qed.

(** The batch, for any submitted callable and at least one worker: it
    returns, and its trace is the records of the futures 0, ..., n-1 in the
    order of completion. *)
Lemma run_batch_spec fn tickers max_workers sched :
  (1 <= max_workers)%Z ->
  exists order,
    order ≡ₚ seq 0 (length tickers) /\
    run_batch fn tickers max_workers sched =
    Ret {| completed := map (slot fn tickers) order;
           failed_tickers :=
             map ticker_of (List.filter raised (map (slot fn tickers) order));
           manifest :=
             manifest_for
               (map ticker_of (List.filter raised (map (slot fn tickers) order))) |}.
Proof.
  intros HW. unfold run_batch, ThreadPoolExecutor.
  destruct (Z.leb_spec max_workers 0) as [Hle|_]; [lia|].
  cbn [mbind Exc_bind].
  destruct (submit_all fn tickers _ ∅) as [ex m] eqn:Hsub.
  destruct (submit_all_spec fn tickers _ ∅ [] (fun i => lookup_empty i)
              (fun i => lookup_empty i) (map_size_empty (M := gmap nat)) ex m Hsub)
    as [Hm Hcalls].
  simpl in Hm, Hcalls.
  set (order := as_completed (dict_keys m) sched).
  assert (Horder : order ≡ₚ seq 0 (length tickers)).
  { unfold order. rewrite as_completed_Permutation.
    apply dict_keys_Permutation. exact Hm. }
  exists order. split; [exact Horder|].
  assert (Hkeys : forall fut, fut ∈ order -> is_Some (m !! fut)).
  { intros fut Hin. rewrite Horder in Hin. apply elem_of_seq in Hin.
    rewrite Hm. apply lookup_lt_is_Some_2. lia. }
  rewrite collect_spec by exact Hkeys. cbn.
  assert (Hslots :
    map (fun fut => (fut, default "" (m !! fut), result ex fut)) order
    = map (slot fn tickers) order).
  { apply map_ext_in. intros fut Hin. apply list_elem_of_In in Hin.
    destruct (Hkeys fut Hin) as [t Ht]. unfold slot, result.
    rewrite Hcalls. rewrite Hm in Ht |- *. rewrite Ht. reflexivity. }
  rewrite Hslots.
  destruct (map ticker_of _); reflexivity.
Qed.

Lemma run_batch_no_workers fn tickers max_workers sched :
  (max_workers <= 0)%Z ->
  run_batch fn tickers max_workers sched =
  Raise (ValueError "max_workers must be greater than 0").
Proof.
  intros HW. unfold run_batch, ThreadPoolExecutor.
  destruct (Z.leb_spec max_workers 0); [reflexivity | lia].
Qed.

Lemma ticker_of_sequential fn tickers :
  map ticker_of (sequential fn tickers) = tickers.
Proof.
  unfold sequential. apply list_eq. intros i.
  rewrite list_lookup_fmap, list_lookup_imap.
  destruct (tickers !! i); reflexivity.
Qed.

Lemma future_of_sequential fn tickers :
  map future_of (sequential fn tickers) = seq 0 (length tickers).
Proof.
  rewrite <- slot_seq, map_map. apply map_id.
Qed.

(** ** The task *)

Section DriverFacts.
Context {F : Type} `{Float64 F}.

(** The single exit of [collect_data_for_ticker], by cases on what the
    adapter and the write do. *)
Lemma collect_data_for_ticker_exit
    (adapter : string -> string -> string -> Exc (option (DataFrame F)))
    (to_csv : string -> DataFrame F -> Exc unit) ticker start_date end_date :
  collect_data_for_ticker adapter to_csv ticker start_date end_date =
  Ret match adapter ticker start_date end_date with
      | Ret (Some df) =>
          returned (to_csv (yahoo_finance_file_path ticker) df)
      | Ret None | Raise _ => false
      end.
Proof.
  unfold collect_data_for_ticker, try_finally.
  destruct (adapter ticker start_date end_date) as [[df|]|e]; cbn;
    try reflexivity.
  destruct (to_csv _ df); reflexivity.
Qed.

Lemma get_yahoo_finance_data_never_raises
    (yf : string -> string -> string -> Exc (DataFrame F)) ticker start_date end_date :
  exists o, get_yahoo_finance_data yf ticker start_date end_date = Ret o.
Proof.
  unfold get_yahoo_finance_data.
  apply (try_except_Exception_returns _ _ None). reflexivity.
Qed.

Lemma task_returns (world : nat -> TaskWorld) start_date end_date fut ticker :
  exists b, task world start_date end_date fut ticker = Ret b.
Proof.
  unfold task. rewrite collect_data_for_ticker_exit. eauto.
Qed.

Lemma no_slot_raised (world : nat -> TaskWorld) start_date end_date tickers order :
  List.filter raised (map (slot (task world start_date end_date) tickers) order) = [].
Proof.
  induction order as [|fut order IH]; [reflexivity|].
  assert (Hfut : raised (slot (task world start_date end_date) tickers fut) = false).
  { unfold raised, slot. cbn [snd].
    destruct (task_returns world start_date end_date fut
                (default "" (tickers !! fut))) as [b ->].
    reflexivity. }
  cbn [map List.filter]. rewrite Hfut. exact IH.
Qed.

(** [main] with at least one worker: it returns, the trace holds the
    record of every future in the order of completion, no ticker is
    recorded as failed and no manifest is written. *)
Lemma main_spec tickers start_date end_date max_workers
    (world : nat -> TaskWorld) sched :
  (1 <= max_workers)%Z ->
  exists order,
    order ≡ₚ seq 0 (length tickers) /\
    main tickers start_date end_date max_workers world sched =
    Ret {| completed := map (slot (task world start_date end_date) tickers) order;
           failed_tickers := [];
           manifest := None |}.
Proof.
  intros HW. destruct tickers as [|t tickers].
  - exists []. split; reflexivity.
  - unfold main.
    destruct (run_batch_spec (task world start_date end_date) (t :: tickers)
                max_workers sched HW) as (order & Horder & Hrun).
    exists order. split; [exact Horder|].
    rewrite Hrun, no_slot_raised. reflexivity.
Qed.

Lemma completed_sequential fn tickers order :
  order ≡ₚ seq 0 (length tickers) ->
  map (slot fn tickers) order ≡ₚ sequential fn tickers.
Proof.
  intros Horder. rewrite <- slot_seq. apply Permutation_map. exact Horder.
Qed.

End DriverFacts.

(** ** Claims about the driver *)

(** C9. For every behaviour of the adapter call and of the write,
    [collect_data_for_ticker] returns a boolean and raises nothing; the
    boolean is [True] exactly when the adapter returned a frame and the
    write of that frame succeeded. Hence, in [main] run with at least one
    worker, [future.result()] returns for every future and the [except]
    branch of the collection loop records no ticker. *)
Theorem collect_data_for_ticker_returns_a_boolean
    {F : Type} `{Float64 F}
    (adapter : string -> string -> string -> Exc (option (DataFrame F)))
    (to_csv : string -> DataFrame F -> Exc unit)
    (ticker start_date end_date : string)
    (tickers : list string) (max_workers : Z) (world : nat -> TaskWorld)
    (sched : list nat) :
  (1 <= max_workers)%Z ->
  (exists b,
     collect_data_for_ticker adapter to_csv ticker start_date end_date = Ret b /\
     (b = true <->
      exists df, adapter ticker start_date end_date = Ret (Some df) /\
                 to_csv (yahoo_finance_file_path ticker) df = Ret tt)) /\
  (exists report,
     main tickers start_date end_date max_workers world sched = Ret report /\
     Forall (fun c => exists b, snd c = Ret b) (completed report) /\
     failed_tickers report = []).
Proof.
  intros HW. split.
  - rewrite collect_data_for_ticker_exit. eexists. split; [reflexivity|].
    destruct (adapter ticker start_date end_date) as [[df|]|e].
    + destruct (to_csv (yahoo_finance_file_path ticker) df) as [[]|e] eqn:Hw; cbn.
      * split; [intros _; exists df; auto | reflexivity].
      * split; [discriminate|]. intros (df' & [= <-] & Hw'). congruence.
    + split; [discriminate|]. intros (df & [=] & _).
    + split; [discriminate|]. intros (df & [=] & _).
  - destruct (main_spec tickers start_date end_date max_workers world sched HW)
      as (order & _ & Hmain).
    eexists. split; [exact Hmain|]. cbn. split; [|reflexivity].
    apply Forall_forall. intros c Hc. apply list_elem_of_In in Hc.
    apply in_map_iff in Hc as (fut & <- & _). unfold slot. cbn [snd].
    apply task_returns.
Qed.

Lemma collect_data_for_ticker_returns_a_boolean_witness :
  (1 <= 5)%Z /\
  ((exists b,
      collect_data_for_ticker (get_yahoo_finance_data provider) disk_full
        "AAPL" "2023-01-01" "2024-01-01" = Ret b /\
      (b = true <->
       exists df,
         get_yahoo_finance_data provider "AAPL" "2023-01-01" "2024-01-01"
         = Ret (Some df) /\
         disk_full (yahoo_finance_file_path "AAPL") df = Ret tt)) /\
   (exists report,
      main ["AAPL"; "BADTICKER"; "DOWN"] "2023-01-01" "2024-01-01" 5 stormy [2; 0]
      = Ret report /\
      Forall (fun c => exists b, snd c = Ret b) (completed report) /\
      failed_tickers report = [])).
Proof.
  split; [lia|].
  apply (collect_data_for_ticker_returns_a_boolean
           (get_yahoo_finance_data provider) disk_full "AAPL" "2023-01-01"
           "2024-01-01" ["AAPL"; "BADTICKER"; "DOWN"] 5 stormy [2; 0]).
  lia.
Defined.

(** C2. A failure raised by the adapter fetch, and a failure raised by the
    write, both end inside the task, which then returns [False]; and a
    batch in which tasks fail in this way still returns, with every
    submitted task in its trace under the exit the task has on its own,
    none of them an exception. *)
Theorem failures_stop_at_the_task_boundary
    {F : Type} `{Float64 F} (fetch_error write_error : Exception)
    (df : DataFrame F) (to_csv : string -> DataFrame F -> Exc unit)
    (ticker start_date end_date : string)
    (tickers : list string) (max_workers : Z) (world : nat -> TaskWorld)
    (sched : list nat) :
  (1 <= max_workers)%Z ->
  collect_data_for_ticker (fun _ _ _ => Raise fetch_error) to_csv
    ticker start_date end_date = Ret false /\
  collect_data_for_ticker (fun _ _ _ => Ret (Some df))
    (fun _ _ => Raise write_error) ticker start_date end_date = Ret false /\
  exists report,
    main tickers start_date end_date max_workers world sched = Ret report /\
    completed report ≡ₚ sequential (task world start_date end_date) tickers /\
    Forall (fun c => exists b, snd c = Ret b) (completed report).
Proof.
  intros HW. split; [|split].
  - rewrite collect_data_for_ticker_exit. reflexivity.
  - rewrite collect_data_for_ticker_exit. reflexivity.
  - destruct (main_spec tickers start_date end_date max_workers world sched HW)
      as (order & Horder & Hmain).
    eexists. split; [exact Hmain|]. cbn. split.
    + apply completed_sequential. exact Horder.
    + apply Forall_forall. intros c Hc. apply list_elem_of_In in Hc.
      apply in_map_iff in Hc as (fut & <- & _). unfold slot. cbn [snd].
      apply task_returns.
Qed.

Lemma failures_stop_at_the_task_boundary_witness :
  (1 <= 2)%Z /\
  (collect_data_for_ticker (fun _ _ _ => Raise RequestException) disk_ok
     "AAPL" "2023-01-01" "2024-01-01" = Ret false /\
   collect_data_for_ticker (fun _ _ _ => Ret (Some two_days))
     (fun _ _ => Raise OSError) "AAPL" "2023-01-01" "2024-01-01" = Ret false /\
   exists report,
     main ["AAPL"; "DOWN"; "MSFT"] "2023-01-01" "2024-01-01" 2 stormy [1]
     = Ret report /\
     completed report
     ≡ₚ sequential (task stormy "2023-01-01" "2024-01-01") ["AAPL"; "DOWN"; "MSFT"] /\
     Forall (fun c => exists b, snd c = Ret b) (completed report)).
Proof.
  split; [lia|].
  apply (failures_stop_at_the_task_boundary RequestException OSError two_days disk_ok
           "AAPL" "2023-01-01" "2024-01-01" ["AAPL"; "DOWN"; "MSFT"] 2 stormy [1]).
  lia.
Defined.

(** C1. For every universe and any two worker counts of at least 1, under
    any two schedules, both runs return; a run yields one record per
    submitted task, the futures recorded are exactly the futures
    submitted, each once, the records are those of the sequential run up
    to their order, and the two runs produce the same (ticker, outcome
    kind) pairs. The provider and the disk are taken to answer a given
    task in the same way in both runs. *)
Theorem outcomes_do_not_depend_on_workers
    {F : Type} `{Float64 F} (tickers : list string)
    (start_date end_date : string) (world : nat -> TaskWorld)
    (workers1 workers2 : Z) (sched1 sched2 : list nat) :
  (1 <= workers1)%Z -> (1 <= workers2)%Z ->
  exists report1 report2,
    main tickers start_date end_date workers1 world sched1 = Ret report1 /\
    main tickers start_date end_date workers2 world sched2 = Ret report2 /\
    length (completed report1) = length tickers /\
    map future_of (completed report1) ≡ₚ seq 0 (length tickers) /\
    completed report1 ≡ₚ sequential (task world start_date end_date) tickers /\
    outcomes report1 ≡ₚ outcomes report2.
Proof.
  intros H1 H2.
  destruct (main_spec tickers start_date end_date workers1 world sched1 H1)
    as (order1 & Horder1 & Hmain1).
  destruct (main_spec tickers start_date end_date workers2 world sched2 H2)
    as (order2 & Horder2 & Hmain2).
  pose proof (completed_sequential (task world start_date end_date) tickers
                order1 Horder1) as Hseq1.
  pose proof (completed_sequential (task world start_date end_date) tickers
                order2 Horder2) as Hseq2.
  do 2 eexists. split; [exact Hmain1|]. split; [exact Hmain2|].
  cbn [completed]. repeat split.
  - rewrite length_map, Horder1, length_seq. reflexivity.
  - rewrite Hseq1, future_of_sequential. reflexivity.
  - exact Hseq1.
  - unfold outcomes. cbn [completed]. apply Permutation_map.
    rewrite Hseq1, Hseq2. reflexivity.
Qed.

Lemma outcomes_do_not_depend_on_workers_witness :
  (1 <= 1)%Z /\ (1 <= 10)%Z /\
  exists report1 report2,
    main ["AAPL"; "BADTICKER"; "MSFT"; "AAPL"] "2023-01-01" "2024-01-01" 1
      calm [] = Ret report1 /\
    main ["AAPL"; "BADTICKER"; "MSFT"; "AAPL"] "2023-01-01" "2024-01-01" 10
      calm [3; 0; 1] = Ret report2 /\
    length (completed report1) = length ["AAPL"; "BADTICKER"; "MSFT"; "AAPL"] /\
    map future_of (completed report1) ≡ₚ seq 0 4 /\
    completed report1
    ≡ₚ sequential (task calm "2023-01-01" "2024-01-01")
         ["AAPL"; "BADTICKER"; "MSFT"; "AAPL"] /\
    outcomes report1 ≡ₚ outcomes report2.
Proof.
  split; [lia|]. split; [lia|].
  apply (outcomes_do_not_depend_on_workers
           ["AAPL"; "BADTICKER"; "MSFT"; "AAPL"] "2023-01-01" "2024-01-01"
           calm 1 10 [] [3; 0; 1]); lia.
Defined.

(** C8. In a batch over any universe, duplicates included, the run returns
    and every ticker has as many records in the trace as it has
    occurrences in the universe; two occurrences of one ticker are two
    futures, each recorded with the exit of its own call. *)
Theorem every_occurrence_is_a_task
    {F : Type} `{Float64 F} (tickers : list string)
    (start_date end_date : string) (max_workers : Z)
    (world : nat -> TaskWorld) (sched : list nat) :
  (1 <= max_workers)%Z ->
  exists report,
    main tickers start_date end_date max_workers world sched = Ret report /\
    (forall ticker,
       count_occ string_dec (map ticker_of (completed report)) ticker
       = count_occ string_dec tickers ticker) /\
    (forall i j ticker,
       i <> j -> tickers !! i = Some ticker -> tickers !! j = Some ticker ->
       (i, ticker, task world start_date end_date i ticker) ∈ completed report /\
       (j, ticker, task world start_date end_date j ticker) ∈ completed report).
Proof.
  intros HW.
  destruct (main_spec tickers start_date end_date max_workers world sched HW)
    as (order & Horder & Hmain).
  pose proof (completed_sequential (task world start_date end_date) tickers
                order Horder) as Hseq.
  eexists. split; [exact Hmain|]. cbn [completed]. split.
  - intros ticker. apply Permutation_count_occ.
    rewrite Hseq, ticker_of_sequential. reflexivity.
  - assert (Hmem : forall i ticker, tickers !! i = Some ticker ->
        (i, ticker, task world start_date end_date i ticker)
        ∈ map (slot (task world start_date end_date) tickers) order).
    { intros i ticker Hi. rewrite Hseq. unfold sequential.
      apply list_elem_of_lookup. exists i.
      rewrite list_lookup_imap, Hi. reflexivity. }
    intros i j ticker _ Hi Hj. split; apply Hmem; assumption.
Qed.

Lemma every_occurrence_is_a_task_witness :
  (1 <= 5)%Z /\
  exists report,
    main ["AAPL"; "MSFT"; "AAPL"] "2023-01-01" "2024-01-01" 5 stormy [1] = Ret report /\
    (forall ticker,
       count_occ string_dec (map ticker_of (completed report)) ticker
       = count_occ string_dec ["AAPL"; "MSFT"; "AAPL"] ticker) /\
    (forall i j ticker,
       i <> j ->
       ["AAPL"; "MSFT"; "AAPL"] !! i = Some ticker ->
       ["AAPL"; "MSFT"; "AAPL"] !! j = Some ticker ->
       (i, ticker, task stormy "2023-01-01" "2024-01-01" i ticker)
       ∈ completed report /\
       (j, ticker, task stormy "2023-01-01" "2024-01-01" j ticker)
       ∈ completed report).
Proof.
  split; [lia|].
  apply (every_occurrence_is_a_task ["AAPL"; "MSFT"; "AAPL"] "2023-01-01"
           "2024-01-01" 5 stormy [1]).
  lia.
Defined.

(** The universe of the source holds duplicates, CMCSA among them. *)
Example SP500_TICKERS_repeats_CMCSA :
  count_occ string_dec SP500_TICKERS "CMCSA" = 2.
Proof. vm_compute. reflexivity. Qed.

(** Two occurrences of AAPL under two different worlds: the write of the
    first fails, the write of the second succeeds, and both are on
    record. *)
Example duplicates_run_twice :
  main ["AAPL"; "MSFT"; "AAPL"] "2023-01-01" "2024-01-01" 5 stormy [2; 1] =
  Ret {| completed :=
           [(0, "AAPL", Ret false); (1, "MSFT", Ret true); (2, "AAPL", Ret true)];
         failed_tickers := [];
         manifest := None |}.
Proof. vm_compute. reflexivity. Qed.

(** A worker count below 1 is refused before any task is submitted. *)
Example main_without_workers :
  main ["AAPL"] "2023-01-01" "2024-01-01" 0 calm [] =
  Raise (ValueError "max_workers must be greater than 0").
Proof. vm_compute. reflexivity. Qed.

(** Whatever the providers and the disk do, [main] writes no manifest: a
    task that fails returns [False], and the loop records a ticker only
    when [future.result()] raises. *)
Lemma main_writes_no_manifest {F : Type} `{Float64 F} tickers start_date
    end_date max_workers (world : nat -> TaskWorld) sched report :
  main tickers start_date end_date max_workers world sched = Ret report ->
  failed_tickers report = [] /\ manifest report = None.
Proof.
  destruct (Z.le_gt_cases 1 max_workers) as [HW|HW].
  - destruct (main_spec tickers start_date end_date max_workers world sched HW)
      as (order & _ & ->).
    intros [= <-]. split; reflexivity.
  - destruct tickers as [|t tickers]; cbn [main].
    + intros [= <-]. split; reflexivity.
    + rewrite run_batch_no_workers by lia. discriminate.
Qed.

(** C3, at the failing input. The universe is AAPL and BADTICKER, the
    provider has no rows for BADTICKER, five workers. The task of BADTICKER
    fails, and [main] writes no manifest. *)
Theorem failed_task_leaves_no_manifest :
  main ["AAPL"; "BADTICKER"] "2023-01-01" "2024-01-01" 5 calm [1] =
  Ret {| completed := [(0, "AAPL", Ret true); (1, "BADTICKER", Ret false)];
         failed_tickers := [];
         manifest := None |}.
Proof. vm_compute. reflexivity. Qed.

(** C4, at the failing input. The universe is BADTICKER, AAPL, DOWN; the
    provider has no rows for BADTICKER and fails on the network for DOWN;
    the tasks finish in the order DOWN, BADTICKER, AAPL. Two tasks fail,
    so the manifest should read BADTICKER, DOWN, one per line; the loop
    records neither and [main] writes no manifest. *)
Theorem failed_tickers_never_reach_the_manifest :
  exists report,
    main ["BADTICKER"; "AAPL"; "DOWN"] "2023-01-01" "2024-01-01" 5 calm [0; 1]
    = Ret report /\
    completed report
    = [(2, "DOWN", Ret false); (0, "BADTICKER", Ret false); (1, "AAPL", Ret true)] /\
    failed_in_universe_order report ["BADTICKER"; "AAPL"; "DOWN"]
    = ["BADTICKER"; "DOWN"] /\
    manifest_for ["BADTICKER"; "DOWN"]
    = Some ("BADTICKER" +:+ newline +:+ "DOWN") /\
    failed_tickers report = [] /\
    manifest report = None.
Proof.
  eexists. split; [vm_compute; reflexivity|]. repeat split; reflexivity.
Qed.

(** ** Claims about the adapters *)

Section AdapterFacts.
Context {F : Type} `{Float64 F}.

Lemma get_yahoo_finance_data_columns
    (yf : string -> string -> string -> Exc (DataFrame F))
    ticker start_date end_date df :
  get_yahoo_finance_data yf ticker start_date end_date = Ret (Some df) ->
  columns df = ["DATE"; "OPEN"; "HIGH"; "LOW"; "CLOSE"; "VOLUME"; "LOG_RETURNS"].
Proof.
  intros Hdf.
  apply get_yahoo_finance_data_Some in Hdf
    as (raw & data & date & open & high & low & close & volume & _ & _ & _ & _ & ->).
  reflexivity.
Qed.

(** The three failures of the specification all end in [None]. *)
Lemma get_yahoo_finance_data_failure
    (yf : string -> string -> string -> Exc (DataFrame F))
    ticker start_date end_date reason :
  FetchFailure yf ticker start_date end_date reason ->
  get_yahoo_finance_data yf ticker start_date end_date = Ret None.
Proof.
  unfold get_yahoo_finance_data.
  intros [raw Hraw Hempty | exn Hexn | raw data col Hraw Hempty Hdata Hcol Hmiss].
  - rewrite Hraw. cbn. rewrite Hempty. reflexivity.
  - rewrite Hexn. reflexivity.
  - rewrite Hraw. cbn [mbind Exc_bind]. rewrite Hempty. cbn [negb].
    rewrite Hdata. cbn [mbind Exc_bind].
    assert (Hin : In col (List.filter (fun c => negb (has_column data c))
                            expected_columns)).
    { apply filter_In. split; [exact Hcol|]. rewrite Hmiss. reflexivity. }
    destruct (List.filter _ expected_columns); [destruct Hin | reflexivity].
Qed.

Lemma select_columns (df df' : DataFrame F) cols :
  select df cols = Ret df' ->
  columns df' = cols /\ df_index df' = df_index df.
Proof.
  unfold select. intros Hsel.
  apply bind_Ret_inv in Hsel as (picked & Hpicked & [= <-]).
  split; [|reflexivity]. unfold columns. cbn [df_columns].
  revert picked Hpicked.
  induction cols as [|c cols IH]; intros picked Hpicked.
  - cbn in Hpicked. injection Hpicked as <-. reflexivity.
  - cbn [mapM] in Hpicked.
    apply bind_Ret_inv in Hpicked as (cs & Hcs & Hpicked).
    apply bind_Ret_inv in Hpicked as (rest & Hrest & [= <-]).
    apply bind_Ret_inv in Hcs as (s & _ & [= <-]).
    cbn. f_equal. apply IH. exact Hrest.
Qed.

Lemma try_except_to_None {A} (body : Exc (option A)) cls1 cls2 (a : A) :
  try_except body [(cls1, fun _ => Ret None); (cls2, fun _ => Ret None)]
  = Ret (Some a) ->
  body = Ret (Some a).
Proof.
  destruct body as [o|e]; cbn; [auto|].
  destruct (cls1 e); [discriminate|]. destruct (cls2 e); discriminate.
Qed.

Lemma get_polygon_data_columns
    (requests_get : string -> list (string * string) -> Exc (Response F))
    ticker start_date end_date api_key multiplier timespan df :
  get_polygon_data requests_get ticker start_date end_date api_key multiplier
    timespan = Ret (Some df) ->
  columns df = ["Open"; "High"; "Low"; "Close"; "Volume"] /\
  exists stamps, df_index df = LabelIndex (Some "Timestamp") stamps.
Proof.
  unfold get_polygon_data. intros Hdf.
  apply try_except_to_None in Hdf.
  apply bind_Ret_inv in Hdf as (response & _ & Hdf).
  apply bind_Ret_inv in Hdf as (_ & _ & Hdf).
  apply bind_Ret_inv in Hdf as (data & _ & Hdf).
  apply bind_Ret_inv in Hdf as (results & _ & Hdf).
  assert (Hnone : forall (b : option (JsonValue F) -> option (JsonValue F) -> bool),
    (status ← payload_get data "status";
     again ← (if is_NOT_FOUND status then mret None
              else payload_get data "results");
     if b status again then mret None else mret None)
    <> Ret (Some df)).
  { intros b Hb.
    apply bind_Ret_inv in Hb as (status & _ & Hb).
    apply bind_Ret_inv in Hb as (again & _ & Hb).
    destruct (b status again); discriminate. }
  destruct results as [v|];
    [|exfalso; exact (Hnone (fun s a => is_NOT_FOUND s || negb (got_truthy a)) Hdf)].
  destruct (value_truthy v);
    [|exfalso; exact (Hnone (fun s a => is_NOT_FOUND s || negb (got_truthy a)) Hdf)].
  apply bind_Ret_inv in Hdf as (df0 & _ & Hdf).
  apply bind_Ret_inv in Hdf as (stamps & _ & Hdf).
  apply bind_Ret_inv in Hdf as (stamps' & _ & Hdf).
  apply bind_Ret_inv in Hdf as (indexed & Hindexed & Hdf).
  apply bind_Ret_inv in Hdf as (picked & Hpicked & [= <-]).
  apply select_columns in Hpicked as [Hcols Hindex].
  split; [exact Hcols|].
  rewrite Hindex.
  unfold set_index in Hindexed.
  apply bind_Ret_inv in Hindexed as (s & _ & [= <-]).
  eauto.
Qed.

End AdapterFacts.

(** C6. In every frame the Yahoo adapter returns, the log-return column
    has one value per close; its first value is null, and its value in
    every later row t is the logarithm of close_t / close_(t-1), in the
    float arithmetic of the frame. *)
Theorem log_returns_follow_the_close
    {F : Type} `{Float64 F}
    (yf : string -> string -> string -> Exc (DataFrame F))
    (ticker start_date end_date : string) (df : DataFrame F) :
  get_yahoo_finance_data yf ticker start_date end_date = Ret (Some df) ->
  exists close log_returns,
    getitem df "CLOSE" = Ret (Numeric close) /\
    getitem df "LOG_RETURNS" = Ret (Numeric log_returns) /\
    length log_returns = length close /\
    (forall c, close !! 0 = Some c -> log_returns !! 0 = Some None) /\
    (forall t c1 c0,
       close !! S t = Some c1 -> close !! t = Some c0 ->
       log_returns !! S t = Some (nan_log (nan_div c1 c0))).
Proof.
  intros Hdf.
  apply get_yahoo_finance_data_Some in Hdf
    as (raw & data & date & open & high & low & close & volume & _ & _ & _ & _ & ->).
  exists close. eexists. split; [reflexivity|]. split; [reflexivity|].
  split; [|split].
  - rewrite length_map, length_zip_with, length_shift1. lia.
  - intros c Hc. destruct close as [|c' close]; [discriminate|].
    cbn. unfold nan_div. destruct c'; reflexivity.
  - intros t c1 c0 H1 H0.
    rewrite list_lookup_fmap, lookup_zip_with, H1.
    rewrite (shift1_lookup_S close t c1 H1), H0. reflexivity.
Qed.

Lemma log_returns_follow_the_close_witness :
  get_yahoo_finance_data provider "AAPL" "2023-01-01" "2024-01-01"
  = Ret (Some two_days_normalized) /\
  exists close log_returns,
    getitem two_days_normalized "CLOSE" = Ret (Numeric close) /\
    getitem two_days_normalized "LOG_RETURNS" = Ret (Numeric log_returns) /\
    length log_returns = length close /\
    (forall c, close !! 0 = Some c -> log_returns !! 0 = Some None) /\
    (forall t c1 c0,
       close !! S t = Some c1 -> close !! t = Some c0 ->
       log_returns !! S t = Some (nan_log (nan_div c1 c0))).
Proof.
  split; [reflexivity|].
  apply (log_returns_follow_the_close provider "AAPL" "2023-01-01" "2024-01-01").
  reflexivity.
Defined.

(** C7, as the code has it. The Yahoo adapter returns the seven columns
    DATE, OPEN, HIGH, LOW, CLOSE, VOLUME, LOG_RETURNS in this order. For
    an answer whose bars carry none of the adapter's own column names as
    a key, so that renaming the bar keys yields distinct labels, the
    Polygon adapter returns the five columns Open, High, Low, Close,
    Volume in this order, indexed by Timestamp. *)
Theorem each_adapter_has_its_own_columns
    {F : Type} `{Float64 F}
    (yf : string -> string -> string -> Exc (DataFrame F))
    (requests_get : string -> list (string * string) -> Exc (Response F))
    (ticker start_date end_date api_key : string) (multiplier : Z)
    (timespan : string) (yahoo_frame polygon_frame : DataFrame F)
    (response : Response F) (fields : list (string * JsonValue F))
    (bars : list (list (string * option F))) :
  get_yahoo_finance_data yf ticker start_date end_date = Ret (Some yahoo_frame) ->
  get_polygon_data requests_get ticker start_date end_date api_key multiplier
    timespan = Ret (Some polygon_frame) ->
  requests_get (polygon_url ticker start_date end_date multiplier timespan)
    [("apiKey", api_key); ("sort", "asc"); ("limit", pretty 50000%Z)]
  = Ret response ->
  json response = Ret (JObject fields) ->
  dict_get fields "results" = Some (JRecords bars) ->
  (forall bar key, bar ∈ bars -> key ∈ map fst bar ->
     key ∉ ["Open"; "High"; "Low"; "Close"; "Volume"; "Timestamp"]) ->
  columns yahoo_frame
  = ["DATE"; "OPEN"; "HIGH"; "LOW"; "CLOSE"; "VOLUME"; "LOG_RETURNS"] /\
  columns polygon_frame = ["Open"; "High"; "Low"; "Close"; "Volume"] /\
  exists stamps, df_index polygon_frame = LabelIndex (Some "Timestamp") stamps.
Proof.
  intros Hyahoo Hpolygon _ _ _ _. split.
  - eapply get_yahoo_finance_data_columns. exact Hyahoo.
  - eapply get_polygon_data_columns. exact Hpolygon.
Qed.

Lemma each_adapter_has_its_own_columns_witness :
  exists polygon_frame,
    get_yahoo_finance_data provider "AAPL" "2023-01-01" "2024-01-01"
    = Ret (Some two_days_normalized) /\
    get_polygon_data polygon "AAPL" "2023-01-01" "2024-01-01" "key" 1 "day"
    = Ret (Some polygon_frame) /\
    columns two_days_normalized
    = ["DATE"; "OPEN"; "HIGH"; "LOW"; "CLOSE"; "VOLUME"; "LOG_RETURNS"] /\
    columns polygon_frame = ["Open"; "High"; "Low"; "Close"; "Volume"] /\
    exists stamps, df_index polygon_frame = LabelIndex (Some "Timestamp") stamps.
Proof.
  eexists. split; [reflexivity|]. split; [reflexivity|].
  refine (each_adapter_has_its_own_columns provider polygon "AAPL" "2023-01-01"
            "2024-01-01" "key" 1 "day" _ _ bars
            [("status", JString "OK");
             ("results", JRecords
                [[("v", Some 5000%R); ("o", Some 99%R); ("c", Some 100%R);
                  ("h", Some 102%R); ("l", Some 98%R);
                  ("t", Some 1704085200000%R); ("n", Some 42%R)]])]
            [[("v", Some 5000%R); ("o", Some 99%R); ("c", Some 100%R);
              ("h", Some 102%R); ("l", Some 98%R);
              ("t", Some 1704085200000%R); ("n", Some 42%R)]]
            eq_refl eq_refl eq_refl eq_refl eq_refl _).
  intros bar key Hbar Hkey.
  apply list_elem_of_singleton in Hbar. subst bar.
  repeat (apply elem_of_cons in Hkey as [->|Hkey];
          [intros Hin;
           repeat (apply elem_of_cons in Hin as [Hin|Hin]; [discriminate|]);
           apply elem_of_nil in Hin; exact Hin|]).
  apply elem_of_nil in Hkey. destruct Hkey.
Defined.

(** C7 as stated fails: on the same ticker the two price adapters return
    frames whose columns differ in number, in names and in what they
    hold. *)
Lemma price_adapters_disagree_on_columns :
  exists yahoo_frame polygon_frame,
    get_yahoo_finance_data provider "AAPL" "2023-01-01" "2024-01-01"
    = Ret (Some yahoo_frame) /\
    get_polygon_data polygon "AAPL" "2023-01-01" "2024-01-01" "key" 1 "day"
    = Ret (Some polygon_frame) /\
    columns yahoo_frame
    = ["DATE"; "OPEN"; "HIGH"; "LOW"; "CLOSE"; "VOLUME"; "LOG_RETURNS"] /\
    columns polygon_frame = ["Open"; "High"; "Low"; "Close"; "Volume"] /\
    columns yahoo_frame <> columns polygon_frame.
Proof.
  eexists. eexists. split; [reflexivity|]. split; [reflexivity|].
  split; [reflexivity|]. split; [reflexivity|]. discriminate.
Qed.

(** C5, as the code has it. When the provider has no rows, when the
    provider call raises and when an expected column is missing, the
    adapter raises nothing and returns [None], and the task returns
    [False]: the value handed back is the same in the three cases and
    carries no reason. *)
Theorem every_fetch_failure_returns_None
    {F : Type} `{Float64 F}
    (yf : string -> string -> string -> Exc (DataFrame F))
    (to_csv : string -> DataFrame F -> Exc unit)
    (ticker start_date end_date : string) (reason : FailureReason) :
  FetchFailure yf ticker start_date end_date reason ->
  get_yahoo_finance_data yf ticker start_date end_date = Ret None /\
  collect_data_for_ticker (get_yahoo_finance_data yf) to_csv
    ticker start_date end_date = Ret false.
Proof.
  intros Hfail.
  pose proof (get_yahoo_finance_data_failure yf ticker start_date end_date
                reason Hfail) as Hnone.
  split; [exact Hnone|].
  rewrite collect_data_for_ticker_exit, Hnone. reflexivity.
Qed.

Lemma every_fetch_failure_returns_None_witness :
  FetchFailure provider "NOVOL" "2023-01-01" "2024-01-01" SchemaMismatch /\
  get_yahoo_finance_data provider "NOVOL" "2023-01-01" "2024-01-01" = Ret None /\
  collect_data_for_ticker (get_yahoo_finance_data provider) disk_ok
    "NOVOL" "2023-01-01" "2024-01-01" = Ret false.
Proof.
  assert (Hfail :
    FetchFailure provider "NOVOL" "2023-01-01" "2024-01-01" SchemaMismatch).
  { eapply (fetch_schema_mismatch provider "NOVOL" "2023-01-01" "2024-01-01"
              no_volume _ "Volume").
    - reflexivity.
    - reflexivity.
    - reflexivity.
    - simpl. auto 10.
    - reflexivity. }
  split; [exact Hfail|].
  exact (every_fetch_failure_returns_None provider disk_ok "NOVOL" "2023-01-01"
           "2024-01-01" SchemaMismatch Hfail).
Defined.

(** C5 as stated fails: no rows for BADTICKER, a network error for DOWN and
    a missing column for NOVOL are three different failures, and the
    adapter and the task answer the three with the same value. *)
Lemma fetch_failures_are_not_told_apart :
  FetchFailure provider "BADTICKER" "2023-01-01" "2024-01-01" NoData /\
  FetchFailure provider "DOWN" "2023-01-01" "2024-01-01" ProviderError /\
  FetchFailure provider "NOVOL" "2023-01-01" "2024-01-01" SchemaMismatch /\
  get_yahoo_finance_data provider "BADTICKER" "2023-01-01" "2024-01-01"
  = get_yahoo_finance_data provider "DOWN" "2023-01-01" "2024-01-01" /\
  get_yahoo_finance_data provider "BADTICKER" "2023-01-01" "2024-01-01"
  = get_yahoo_finance_data provider "NOVOL" "2023-01-01" "2024-01-01" /\
  collect_data_for_ticker (get_yahoo_finance_data provider) disk_ok
    "BADTICKER" "2023-01-01" "2024-01-01"
  = collect_data_for_ticker (get_yahoo_finance_data provider) disk_ok
      "DOWN" "2023-01-01" "2024-01-01" /\
  collect_data_for_ticker (get_yahoo_finance_data provider) disk_ok
    "BADTICKER" "2023-01-01" "2024-01-01"
  = collect_data_for_ticker (get_yahoo_finance_data provider) disk_ok
      "NOVOL" "2023-01-01" "2024-01-01".
Proof.
  split; [|split; [|split]].
  - eapply (fetch_no_data provider _ _ _ no_rows); reflexivity.
  - eapply (fetch_provider_error provider _ _ _ RequestException); reflexivity.
  - eapply (fetch_schema_mismatch provider _ _ _ no_volume _ "Volume");
      try reflexivity.
    simpl. auto 10.
  - repeat split; reflexivity.
Qed.

(** ** The portfolio value *)

Section PortfolioFacts.
Context {V : Type} (add : V -> V -> V).






Lemma length_iterrows (rows : list (Trade V)) c :
  length (iterrows add rows c) = length rows.
Proof.
  revert c. induction rows as [|r rows IH]; intros c; cbn; [reflexivity|].
  rewrite IH. reflexivity.
Qed.



#[local] Instance by_DATE_Transitive : Transitive (@by_DATE V).
Proof. intros p q r. unfold by_DATE. lia. Qed.






End PortfolioFacts.




(** * Further properties of the code *)

Import data_collection_feeds visualizations_benchmark fixtures.

(** ** driver.py *)

(** [main] raises in one case only: a universe with tickers and a worker
    count below 1, and then it is the [ValueError] of the executor. An
    empty universe returns before the executor is built, whatever the
    worker count. *)
Theorem main_raises_only_without_workers
    {F : Type} `{Float64 F} (tickers : list string)
    (start_date end_date : string) (max_workers : Z)
    (world : nat -> TaskWorld) (sched : list nat) :
  (main tickers start_date end_date max_workers world sched
   = Raise (ValueError "max_workers must be greater than 0")
   <-> tickers <> [] /\ (max_workers <= 0)%Z) /\
  (forall exn,
     main tickers start_date end_date max_workers world sched = Raise exn ->
     exn = ValueError "max_workers must be greater than 0").
Proof.
  destruct (Z.le_gt_cases 1 max_workers) as [HW|HW].
  - destruct (main_spec tickers start_date end_date max_workers world sched HW)
      as (order & _ & Hmain).
    rewrite Hmain. split.
    + split; [discriminate|]. intros [_ Hle]. lia.
    + discriminate.
  - destruct tickers as [|t tickers]; cbn [main].
    + split; [|discriminate].
      split; [discriminate|]. intros [Hne _]. congruence.
    + rewrite run_batch_no_workers by lia. split.
      * split; [|reflexivity]. intros _. split; [discriminate | lia].
      * intros exn [= <-]. reflexivity.
Qed.

Lemma string_length_append (s1 s2 : string) :
  String.length (s1 +:+ s2) = String.length s1 + String.length s2.
Proof.
  induction s1 as [|a s1 IH]; [reflexivity|].
  change (String a s1 +:+ s2) with (String a (s1 +:+ s2)).
  cbn [String.length]. rewrite IH. reflexivity.
Qed.

Lemma string_append_cancel_r (suffix s1 s2 : string) :
  s1 +:+ suffix = s2 +:+ suffix -> s1 = s2.
Proof.
  revert s2. induction s1 as [|a s1 IH]; intros [|b s2] Heq.
  - reflexivity.
  - apply (f_equal String.length) in Heq.
    rewrite !string_length_append in Heq. cbn [String.length] in Heq. lia.
  - apply (f_equal String.length) in Heq.
    rewrite !string_length_append in Heq. cbn [String.length] in Heq. lia.
  - change (String a (s1 +:+ suffix) = String b (s2 +:+ suffix)) in Heq.
    injection Heq as -> Heq. f_equal. apply IH. exact Heq.
Qed.

Lemma startswith_sep_append (ticker suffix : string) :
  startswith_sep suffix = false ->
  startswith_sep (ticker +:+ suffix) = startswith_sep ticker.
Proof.
  intros Hsuffix. destruct ticker as [|a ticker]; [exact Hsuffix | reflexivity].
Qed.

(** The path a task hands to [to_csv] is the ticker followed by
    [_yahoo_finance.csv], inside the data directory, unless the ticker
    begins with a slash: [os.path.join] then drops the data directory
    and the path is absolute. Either way the path, as a string, is the
    same for two tickers exactly when the tickers are the same string.
    Whether two different paths name one file is not considered. *)
Theorem file_path_names_the_ticker (ticker1 ticker2 : string) :
  (yahoo_finance_file_path ticker1
   = (if startswith_sep ticker1 then "" else "collected_data/")
     +:+ ticker1 +:+ "_yahoo_finance.csv") /\
  (yahoo_finance_file_path ticker1 = yahoo_finance_file_path ticker2
   <-> ticker1 = ticker2).
Proof.
  assert (Hpath : forall ticker,
    yahoo_finance_file_path ticker
    = (if startswith_sep ticker then "" else "collected_data/")
      +:+ ticker +:+ "_yahoo_finance.csv").
  { intros ticker. unfold yahoo_finance_file_path, os_path_join.
    rewrite startswith_sep_append by reflexivity.
    destruct (startswith_sep ticker); reflexivity. }
  split; [apply Hpath|].
  split; [|intros ->; reflexivity].
  rewrite !Hpath. intros Heq.
  destruct (startswith_sep ticker1) eqn:H1, (startswith_sep ticker2) eqn:H2.
  - apply (inj (String.append "")) in Heq.
    apply string_append_cancel_r in Heq. exact Heq.
  - destruct ticker1 as [|a1 t1]; [discriminate|].
    apply Ascii.eqb_eq in H1. subst a1. lazy in Heq. discriminate.
  - destruct ticker2 as [|a2 t2]; [discriminate|].
    apply Ascii.eqb_eq in H2. subst a2. lazy in Heq. discriminate.
  - apply (inj (String.append "collected_data/")) in Heq.
    apply string_append_cancel_r in Heq. exact Heq.
Qed.

(** A ticker that begins with a slash is written outside the data
    directory. *)
Example absolute_ticker_leaves_the_data_directory :
  yahoo_finance_file_path "/tmp/AAPL" = "/tmp/AAPL_yahoo_finance.csv" /\
  yahoo_finance_file_path "AAPL" = "collected_data/AAPL_yahoo_finance.csv".
Proof. split; reflexivity. Qed.

(** ** data_collection.py: the price adapters *)

Section PriceAdapterFacts.
Context {F : Type} `{Float64 F}.


End PriceAdapterFacts.


Section PolygonFacts.
Context {F : Type} `{Float64 F}.

Lemma try_except_two_clauses_returns {A} (body : Exc A) cls (a b : A) :
  exists r, try_except body [(cls, fun _ => Ret a); (is_Exception, fun _ => Ret b)]
            = Ret r.
Proof.
  destruct body as [r|e]; cbn; [eauto|]. destruct (cls e); eauto.
Qed.

(** The Polygon adapter raises nothing. It returns [None] when the request
    raises, when the status is a 4xx or 5xx one whatever the body holds,
    when the body cannot be decoded, when the body is not an object, and
    when the object has no results or an empty list of them. *)
Theorem get_polygon_data_answers_None_on_errors
    (requests_get : string -> list (string * string) -> Exc (Response F))
    (ticker start_date end_date api_key : string) (multiplier : Z)
    (timespan : string) (exn : Exception) (status : Z)
    (body : Exc (JsonPayload F)) (any : bool)
    (fields : list (string * JsonValue F)) :
  (400 <= status < 600)%Z ->
  dict_get fields "results" = None \/
  dict_get fields "results" = Some (JRecords []) ->
  (exists answer,
     get_polygon_data requests_get ticker start_date end_date api_key
       multiplier timespan = Ret answer) /\
  get_polygon_data (fun _ _ => Raise exn) ticker start_date end_date api_key
    multiplier timespan = Ret None /\
  get_polygon_data (fun _ _ => Ret {| status_code := status; json := body |})
    ticker start_date end_date api_key multiplier timespan = Ret None /\
  get_polygon_data (fun _ _ => Ret {| status_code := 200; json := Raise exn |})
    ticker start_date end_date api_key multiplier timespan = Ret None /\
  get_polygon_data
    (fun _ _ => Ret {| status_code := 200; json := Ret (JNotObject any) |})
    ticker start_date end_date api_key multiplier timespan = Ret None /\
  get_polygon_data
    (fun _ _ => Ret {| status_code := 200; json := Ret (JObject fields) |})
    ticker start_date end_date api_key multiplier timespan = Ret None.
Proof.
  intros Hstatus Hresults.
  split; [apply try_except_two_clauses_returns|].
  unfold get_polygon_data.
  split; [|split; [|split; [|split]]].
  - cbn. destruct (is_RequestException exn); reflexivity.
  - cbn [mbind Exc_bind]. unfold raise_for_status. cbn [status_code].
    destruct (Z.leb_spec 400 status); [|lia].
    destruct (Z.ltb_spec status 600); [|lia].
    reflexivity.
  - cbn. destruct (is_RequestException exn); reflexivity.
  - destruct any; reflexivity.
  - cbn [mbind Exc_bind raise_for_status status_code json].
    change ((400 <=? 200)%Z && (200 <? 600)%Z) with false. cbn iota.
    cbn [payload_get mbind Exc_bind mret Exc_ret].
    destruct Hresults as [Hr | Hr]; rewrite !Hr;
      cbn [value_truthy length Nat.eqb negb got_truthy];
      repeat match goal with
             | |- context [if ?b then _ else _] =>
                 destruct b; cbn [mbind Exc_bind mret Exc_ret orb negb]
             end;
      reflexivity.
Qed.

End PolygonFacts.

Lemma get_polygon_data_answers_None_on_errors_witness :
  (400 <= 429 < 600)%Z /\
  (dict_get [("status", @JString R "OK"); ("results", JRecords [])] "results" = None \/
   dict_get [("status", @JString R "OK"); ("results", JRecords [])] "results"
   = Some (JRecords [])) /\
  get_polygon_data
    (fun _ _ => Ret {| status_code := 429; json := json bars |})
    "AAPL" "2023-01-01" "2024-01-01" "key" 1 "day" = Ret None.
Proof.
  assert (H1 : (400 <= 429 < 600)%Z) by lia.
  assert (H2 :
    dict_get [("status", @JString R "OK"); ("results", JRecords [])] "results" = None \/
    dict_get [("status", @JString R "OK"); ("results", JRecords [])] "results"
    = Some (JRecords [])) by (right; reflexivity).
  split; [exact H1|]. split; [exact H2|].
  exact (proj1 (proj2 (proj2
    (get_polygon_data_answers_None_on_errors polygon "AAPL" "2023-01-01"
       "2024-01-01" "key" 1 "day" RequestException 429 (json bars) true
       [("status", @JString R "OK"); ("results", JRecords [])] H1 H2)))).
Defined.

(** Membership in a list that is written out. *)
Ltac in_list := apply list_elem_of_In; cbn; tauto.

Section PolygonValues.
Context {F : Type} `{Float64 F}.

Lemma first_seen_elem (keys : list string) : forall seen k,
  k ∈ first_seen seen keys <-> k ∈ seen \/ k ∈ keys.
Proof.
  induction keys as [|k0 keys IH]; intros seen k; cbn [first_seen].
  - rewrite elem_of_nil. tauto.
  - rewrite elem_of_cons. case_bool_decide as Hin; rewrite IH.
    + split; [tauto|]. intros [?|[->|?]]; auto.
    + rewrite elem_of_app, list_elem_of_singleton. tauto.
Qed.

(** Looking up a renamed label among columns built from a list of keys. *)
Lemma renamed_lookup {S} (mapping : list (string * string)) (labels : list string)
    (g : string -> S) (short long : string) :
  (forall k, k ∈ labels ->
     String.eqb long (default k (dict_get mapping k)) = String.eqb k short) ->
  dict_get
    (map (fun kv : string * S =>
            (default (fst kv) (dict_get mapping (fst kv)), snd kv))
       (map (fun k => (k, g k)) labels)) long
  = if bool_decide (short ∈ labels) then Some (g short) else None.
Proof.
  induction labels as [|k0 labels IH]; intros Hkeys; [reflexivity|].
  cbn [map dict_get fst snd].
  rewrite (Hkeys k0) by left.
  destruct (String.eqb k0 short) eqn:Hk0.
  - apply String.eqb_eq in Hk0. subst k0.
    rewrite bool_decide_eq_true_2 by left. reflexivity.
  - apply String.eqb_neq in Hk0.
    rewrite IH by (intros k Hk; apply Hkeys; right; exact Hk).
    rewrite (bool_decide_ext (short ∈ k0 :: labels) (short ∈ labels));
      [reflexivity|].
    rewrite elem_of_cons. split; [|auto].
    intros [->|?]; [congruence | assumption].
Qed.

Lemma dict_get_filter_other {S} (d : list (string * S)) (col k : string) :
  String.eqb k col = false ->
  dict_get (filter (fun kv => negb (String.eqb (fst kv) col)) d) k = dict_get d k.
Proof.
  intros Hk. induction d as [|[k0 v0] d IH]; [reflexivity|].
  destruct (String.eqb k0 col) eqn:Hk0.
  - rewrite filter_cons_False by (cbn; rewrite Hk0; auto).
    rewrite IH. cbn [dict_get].
    apply String.eqb_eq in Hk0. subst k0. rewrite Hk. reflexivity.
  - rewrite filter_cons_True by (cbn; rewrite Hk0; exact I).
    cbn [dict_get]. rewrite IH. reflexivity.
Qed.

Lemma polygon_mapping_inverts (short long : string) :
  (short, long) ∈ [("o", "Open"); ("h", "High"); ("l", "Low"); ("c", "Close");
                   ("v", "Volume"); ("t", "Timestamp")] ->
  forall k, k ∈ polygon_bar_keys ->
  String.eqb long (default k (dict_get polygon_mapping k)) = String.eqb k short.
Proof.
  intros Hpair k Hk.
  repeat (apply elem_of_cons in Hpair as [[= -> ->]|Hpair];
          [repeat (apply elem_of_cons in Hk as [->|Hk]; [reflexivity|]);
           apply elem_of_nil in Hk; destruct Hk|]).
  apply elem_of_nil in Hpair. destruct Hpair.
Qed.

(** One page of bars becomes one row per bar, in the order delivered: for
    an answer with a status outside 4xx-5xx whose object holds a list of
    records made of Polygon's bar keys, the first of them carrying o, h,
    l, c, v and t, and whose timestamps convert, the adapter returns the
    frame indexed by the converted timestamps whose Open, High, Low,
    Close and Volume columns are the o, h, l, c and v values of the
    records, NaN where a later record lacks one. *)
Theorem get_polygon_data_keeps_the_bars
    (ticker start_date end_date api_key : string) (multiplier : Z)
    (timespan : string) (status : Z) (fields : list (string * JsonValue F))
    (first : list (string * option F)) (rest : list (list (string * option F)))
    (stamps : Series F) :
  ~ (400 <= status < 600)%Z ->
  dict_get fields "results" = Some (JRecords (first :: rest)) ->
  (forall r k, r ∈ first :: rest -> k ∈ map fst r -> k ∈ polygon_bar_keys) ->
  (forall k, k ∈ ["o"; "h"; "l"; "c"; "v"; "t"] -> k ∈ map fst first) ->
  to_datetime (bar_column (first :: rest) "t") = Ret stamps ->
  get_polygon_data
    (fun _ _ => Ret {| status_code := status; json := Ret (JObject fields) |})
    ticker start_date end_date api_key multiplier timespan
  = Ret (Some
      {| df_index := LabelIndex (Some "Timestamp") stamps;
         df_columns :=
           [("Open", bar_column (first :: rest) "o");
            ("High", bar_column (first :: rest) "h");
            ("Low", bar_column (first :: rest) "l");
            ("Close", bar_column (first :: rest) "c");
            ("Volume", bar_column (first :: rest) "v")] |}).
Proof.
  intros Hstatus Hresults Hkeys Hfirst Hstamps.
  set (rows := first :: rest) in *.
  set (labels := first_seen [] (concat (map (map fst) rows))).
  assert (Hlabels : forall k, k ∈ labels -> k ∈ polygon_bar_keys).
  { intros k Hk. apply first_seen_elem in Hk as [Hk|Hk];
      [apply elem_of_nil in Hk; destruct Hk|].
    apply list_elem_of_In, in_concat in Hk as (keys & Hkeys' & Hk).
    apply in_map_iff in Hkeys' as (r & <- & Hr).
    apply (Hkeys r k); apply list_elem_of_In; assumption. }
  assert (Hhas : forall k, k ∈ ["o"; "h"; "l"; "c"; "v"; "t"] -> k ∈ labels).
  { intros k Hk. apply first_seen_elem. right.
    apply list_elem_of_In, in_concat. exists (map fst first). split.
    - left. reflexivity.
    - apply list_elem_of_In, Hfirst, Hk. }
  assert (Hcol : forall short long,
    (short, long) ∈ [("o", "Open"); ("h", "High"); ("l", "Low");
                     ("c", "Close"); ("v", "Volume"); ("t", "Timestamp")] ->
    dict_get
      (df_columns (rename (DataFrame_of_records rows) polygon_mapping)) long
    = Some (bar_column rows short)).
  { intros short long Hpair.
    change (dict_get
              (map (fun kv : string * Series F =>
                      (default (fst kv) (dict_get polygon_mapping (fst kv)), snd kv))
                 (map (fun k => (k, bar_column rows k)) labels)) long
            = Some (bar_column rows short)).
    rewrite (renamed_lookup polygon_mapping labels (bar_column rows) short long).
    - rewrite bool_decide_eq_true_2; [reflexivity|].
      apply Hhas.
      repeat (apply elem_of_cons in Hpair as [[= -> ->]|Hpair];
              [in_list|]).
      apply elem_of_nil in Hpair. destruct Hpair.
    - intros k Hk. apply polygon_mapping_inverts; [exact Hpair|].
      apply Hlabels, Hk. }
  unfold get_polygon_data. cbn [mbind Exc_bind].
  unfold raise_for_status. cbn [status_code json].
  assert (Hok : ((400 <=? status) && (status <? 600))%Z = false).
  { destruct (Z.leb_spec 400 status), (Z.ltb_spec status 600);
      try reflexivity. lia. }
  rewrite Hok. cbn [mbind Exc_bind].
  assert (Htruthy : payload_truthy (JObject fields) = true)
    by (destruct fields; [discriminate | reflexivity]).
  rewrite Htruthy. cbn [payload_get mbind Exc_bind]. rewrite Hresults.
  fold rows. cbn [value_truthy pd_DataFrame mbind Exc_bind].
  change (negb (length rows =? 0)) with true. cbn iota.
  change [("o", "Open"); ("h", "High"); ("l", "Low"); ("c", "Close");
          ("v", "Volume"); ("t", "Timestamp"); ("n", "Transactions")]
    with polygon_mapping.
  set (df := rename (DataFrame_of_records rows) polygon_mapping) in *.
  unfold getitem at 1. rewrite (Hcol "t" "Timestamp") by in_list.
  cbn [mbind Exc_bind]. rewrite Hstamps. cbn [mbind Exc_bind].
  unfold set_index, getitem, setitem. cbn [df_columns df_index].
  rewrite dict_get_set. cbn [String.eqb Ascii.eqb Bool.eqb andb].
  cbn [mbind Exc_bind mret Exc_ret].
  unfold select, getitem. cbn [df_columns df_index mapM].
  rewrite !dict_get_filter_other by reflexivity.
  rewrite !dict_get_set. cbn [String.eqb Ascii.eqb Bool.eqb andb].
  rewrite (Hcol "o" "Open"), (Hcol "h" "High"), (Hcol "l" "Low"),
    (Hcol "c" "Close"), (Hcol "v" "Volume") by in_list.
  reflexivity.
Qed.

End PolygonValues.

(** A whole number of milliseconds converts to itself. *)
Lemma Int_part_IZR (z : Z) : Int_part (IZR z) = z.
Proof.
  symmetry. apply Int_part_spec. split.
  - apply Rminus_lt. unfold Rminus. rewrite Rplus_assoc, Rplus_comm, Rplus_assoc.
    rewrite Rplus_opp_l, Rplus_0_r. apply Ropp_lt_gt_0_contravar, Rlt_0_1.
  - apply Rle_refl.
Qed.

Lemma get_polygon_data_keeps_the_bars_witness :
  ~ (400 <= 200 < 600)%Z /\
  get_polygon_data (fun _ _ => Ret two_bars_page)
    "AAPL" "2023-01-01" "2024-01-01" "key" 1 "day"
  = Ret (Some
      {| df_index :=
           LabelIndex (Some "Timestamp")
             (Labels [Some 1704085200000%Z; Some 1704171600000%Z]);
         df_columns :=
           [("Open", Numeric [Some 99%R; Some 101%R]);
            ("High", Numeric [Some 102%R; Some 111%R]);
            ("Low", Numeric [Some 98%R; Some 100%R]);
            ("Close", Numeric [Some 100%R; Some 110%R]);
            ("Volume", Numeric [Some 5000%R; Some 6000%R])] |}).
Proof.
  assert (H1 : ~ (400 <= 200 < 600)%Z) by lia.
  split; [exact H1|].
  assert (Hstamps : to_datetime (bar_column two_bars "t")
                    = Ret (Labels [Some 1704085200000%Z; Some 1704171600000%Z])).
  { cbn. rewrite !Int_part_IZR. reflexivity. }
  refine (get_polygon_data_keeps_the_bars "AAPL" "2023-01-01" "2024-01-01"
            "key" 1 "day" 200
            [("status", JString "OK"); ("results", JRecords two_bars)]
            _ _ _ H1 eq_refl _ _ Hstamps).
  - intros r k Hr Hk.
    repeat (apply elem_of_cons in Hr as [->|Hr];
            [repeat (apply elem_of_cons in Hk as [->|Hk]; [in_list|]);
             apply elem_of_nil in Hk; destruct Hk|]).
    apply elem_of_nil in Hr. destruct Hr.
  - intros k Hk.
    repeat (apply elem_of_cons in Hk as [->|Hk]; [in_list|]).
    apply elem_of_nil in Hk. destruct Hk.
Defined.

(** ** data_collection.py: StockTwits *)

Lemma mapM_returns {A B} (f : A -> Exc B) (g : A -> B) (l : list A) :
  Forall (fun x => f x = Ret (g x)) l -> mapM f l = Ret (map g l).
Proof.
  induction 1 as [|x l Hx _ IH]; [reflexivity|].
  cbn [mapM map]. rewrite Hx. cbn [mbind Exc_bind].
  change (mapM f l ≫= (fun k => mret (g x :: k)) = Ret (g x :: map g l)).
  rewrite IH. reflexivity.
Qed.

Lemma mapM_raises {A B} (f : A -> Exc B) (l : list A) x exn :
  x ∈ l -> f x = Raise exn -> exists exn', mapM f l = Raise exn'.
Proof.
  intros Hin Hx. induction l as [|y l IH]; [apply elem_of_nil in Hin; destruct Hin|].
  cbn [mapM]. destruct (f y) as [b|e] eqn:Hy; cbn [mbind Exc_bind]; [|eauto].
  apply elem_of_cons in Hin as [->|Hin]; [congruence|].
  destruct (IH Hin) as [exn' Hl].
  change (exists exn'0, mapM f l ≫= (fun k => mret (b :: k)) = Raise exn'0).
  rewrite Hl. cbn. eauto.
Qed.

Lemma message_info_plain (msg : Json) :
  plain_message msg = true -> message_info msg = Ret (summary msg).
Proof.
  destruct msg as [| | | | |fields]; try discriminate.
  unfold plain_message, message_info, summary.
  cbn [get get_or mbind Exc_bind].
  intros Hplain.
  apply andb_prop in Hplain as [Hplain Hentities].
  apply andb_prop in Hplain as [Huser Hsymbols].
  unfold absent_or in Huser, Hsymbols, Hentities. unfold field.
  destruct (dict_get fields "user") as [user|];
    [destruct user; try discriminate|];
    cbn [get get_or mbind Exc_bind].
  all: destruct (dict_get fields "symbols") as [symbols|];
    [destruct symbols as [| | | |items|]; try discriminate|];
    cbn [iterate mbind Exc_bind].
  all: try (rewrite (mapM_returns (fun s => get s "symbol")
                       (fun s => field s "symbol") items);
            [|apply Forall_forall; intros s Hs;
              apply list_elem_of_In in Hs;
              rewrite forallb_forall in Hsymbols; specialize (Hsymbols s Hs);
              destruct s; try discriminate; reflexivity]).
  all: cbn [mapM mbind Exc_bind mret Exc_ret].
  all: destruct (dict_get fields "entities") as [entities|];
    [destruct entities as [| | | | |entities]; try discriminate|];
    cbn [get get_or mbind Exc_bind].
  all: cbn -[dict_get].
  all: try (unfold absent_or in Hentities;
            destruct (dict_get entities "sentiment") as [sentiment|];
            [destruct sentiment; try discriminate|]).
  all: reflexivity.
Qed.

(** A message whose user or whose sentiment is [None] stops
    [message_info]: [None] has no [get]. *)
Lemma message_info_null (fields : list (string * Json)) :
  dict_get fields "user" = Some JNone \/
  (exists entities,
     dict_get fields "entities" = Some (JDict entities) /\
     dict_get entities "sentiment" = Some JNone) ->
  exists exn, message_info (JDict fields) = Raise exn.
Proof.
  unfold message_info. cbn [get get_or mbind Exc_bind].
  intros [Huser | (entities & Hentities & Hsentiment)].
  - rewrite Huser. cbn. eauto.
  - destruct (get _ "username") as [username|e]; cbn [mbind Exc_bind]; [|eauto].
    destruct (get _ "id") as [id|e]; cbn [mbind Exc_bind]; [|eauto].
    destruct (iterate _) as [symbols|e]; cbn [mbind Exc_bind]; [|eauto].
    destruct (mapM _ symbols) as [names|e]; cbn [mbind Exc_bind]; [|eauto].
    rewrite Hentities. cbn [get_or mbind Exc_bind].
    rewrite Hsentiment. cbn. eauto.
Qed.

(** The StockTwits adapter raises nothing, and it returns the empty list
    when the request raises, when the status is a 4xx or 5xx one, when
    the body cannot be decoded, when the body is anything but a dict, and
    when the dict has no [messages] key: the caller cannot tell any of
    these from a symbol nobody wrote about. *)
Theorem get_stocktwits_data_answers_empty_on_errors
    (requests_get : string -> list (string * string) -> Exc HttpResponse)
    (ticker : string) (limit : Z) (exn : Exception) (status : Z)
    (body : Exc Json) (data : Json) (fields : list (string * Json)) :
  (400 <= status < 600)%Z ->
  (forall f, data <> JDict f) ->
  dict_get fields "messages" = None ->
  (exists messages, get_stocktwits_data requests_get ticker limit = Ret messages) /\
  get_stocktwits_data (fun _ _ => Raise exn) ticker limit = Ret [] /\
  get_stocktwits_data
    (fun _ _ => Ret {| http_status := status; http_json := body |})
    ticker limit = Ret [] /\
  get_stocktwits_data
    (fun _ _ => Ret {| http_status := 200; http_json := Raise exn |})
    ticker limit = Ret [] /\
  get_stocktwits_data
    (fun _ _ => Ret {| http_status := 200; http_json := Ret data |})
    ticker limit = Ret [] /\
  get_stocktwits_data
    (fun _ _ => Ret {| http_status := 200; http_json := Ret (JDict fields) |})
    ticker limit = Ret [].
Proof.
  intros Hstatus Hdata Hfields.
  split; [apply try_except_two_clauses_returns|].
  unfold get_stocktwits_data.
  split; [|split; [|split; [|split]]].
  - cbn. destruct (is_RequestException exn); reflexivity.
  - cbn [mbind Exc_bind]. unfold http_raise_for_status. cbn [http_status].
    destruct (Z.leb_spec 400 status); [|lia].
    destruct (Z.ltb_spec status 600); [|lia].
    reflexivity.
  - cbn. destruct (is_RequestException exn); reflexivity.
  - destruct data as [|b|n|s|items|f]; cbn.
    + reflexivity.
    + destruct b; reflexivity.
    + destruct (n =? 0)%Z; reflexivity.
    + destruct (String.eqb s ""); [reflexivity|]. cbn.
      destruct (String.index 0 "messages" s); reflexivity.
    + destruct items as [|x items]; [reflexivity|]. cbn.
      destruct (is_text "messages" x || existsb (is_text "messages") items);
        reflexivity.
    + destruct (Hdata f). reflexivity.
  - cbn [mbind Exc_bind http_raise_for_status http_status http_json].
    change ((400 <=? 200)%Z && (200 <? 600)%Z) with false. cbn iota.
    cbn [mbind Exc_bind truthy contains].
    unfold dict_mem. rewrite Hfields.
    destruct (negb (length fields =? 0)); reflexivity.
Qed.

Lemma get_stocktwits_data_answers_empty_on_errors_witness :
  (400 <= 503 < 600)%Z /\
  (forall f, JList [JText "messages"] <> JDict f) /\
  dict_get [("errors", JList [JText "rate limit"])] "messages" = None /\
  get_stocktwits_data
    (fun _ _ => Ret {| http_status := 200;
                       http_json := Ret (JList [JText "messages"]) |})
    "AAPL" 50 = Ret [].
Proof.
  assert (H1 : (400 <= 503 < 600)%Z) by lia.
  assert (H2 : forall f, JList [JText "messages"] <> JDict f) by discriminate.
  split; [exact H1|]. split; [exact H2|]. split; [reflexivity|].
  exact (proj1 (proj2 (proj2 (proj2 (proj2
    (get_stocktwits_data_answers_empty_on_errors (stream []) "AAPL" 50
       RequestException 503 (Ret JNone) (JList [JText "messages"])
       [("errors", JList [JText "rate limit"])] H1 H2 eq_refl)))))).
Defined.

(** The adapter looks at the answer to one request only: the stream of
    the symbol, with the single parameter [limit], whose value is the
    limit asked for when that is at most 200 and 200 above that.
    Whatever the transport does on any other request changes nothing. *)
Theorem get_stocktwits_data_asks_once_for_at_most_200
    (requests_get : string -> list (string * string) -> Exc HttpResponse)
    (ticker : string) (limit : Z) :
  get_stocktwits_data requests_get ticker limit
  = get_stocktwits_data
      (fun _ _ =>
         requests_get
           ("https://api.stocktwits.com/api/2/streams/symbol/" +:+ ticker
            +:+ ".json")
           [("limit", pretty (if (limit <=? 200)%Z then limit else 200%Z))])
      ticker limit.
Proof.
  unfold get_stocktwits_data, stocktwits_url.
  replace (Z.min limit 200) with (if (limit <=? 200)%Z then limit else 200%Z);
    [reflexivity|].
  destruct (Z.leb_spec limit 200); lia.
Qed.

(** A transport that serves a page only when asked for 200 messages at
    most: asked for 500, the adapter still gets its page. *)
Example get_stocktwits_data_is_served_beyond_200 :
  get_stocktwits_data
    (fun url params =>
       if bool_decide (params = [("limit", "200")])
       then stream [bullish] url params
       else Raise (HTTPError 400))
    "AAPL" 500
  = Ret [summary bullish].
Proof. reflexivity. Qed.

(** From a stream of plain messages the adapter returns one record per
    message, in the order of the stream, holding the id, body and date of
    the message, the name and id of its user, the symbol of each of its
    symbols and its basic sentiment, [None] wherever the message has no
    such entry. *)
Theorem get_stocktwits_data_lists_every_message
    (ticker : string) (limit : Z) (status : Z)
    (fields : list (string * Json)) (messages : list Json) :
  ~ (400 <= status < 600)%Z ->
  dict_get fields "messages" = Some (JList messages) ->
  Forall (fun msg => plain_message msg = true) messages ->
  get_stocktwits_data
    (fun _ _ => Ret {| http_status := status; http_json := Ret (JDict fields) |})
    ticker limit
  = Ret (map summary messages).
Proof.
  intros Hstatus Hfields Hplain.
  unfold get_stocktwits_data. cbn [mbind Exc_bind].
  unfold http_raise_for_status. cbn [http_status http_json].
  assert (Hok : ((400 <=? status) && (status <? 600))%Z = false).
  { destruct (Z.leb_spec 400 status), (Z.ltb_spec status 600);
      try reflexivity. lia. }
  rewrite Hok. cbn [mbind Exc_bind truthy].
  assert (Htruthy : negb (length fields =? 0) = true)
    by (destruct fields; [discriminate | reflexivity]).
  rewrite Htruthy. cbn [contains mbind Exc_bind]. unfold dict_mem.
  rewrite Hfields. cbn [subscript mbind Exc_bind]. rewrite Hfields.
  cbn [iterate mbind Exc_bind].
  rewrite (mapM_returns message_info summary).
  - reflexivity.
  - eapply Forall_impl; [exact Hplain|]. intros msg. apply message_info_plain.
Qed.

Lemma get_stocktwits_data_lists_every_message_witness :
  ~ (400 <= 200 < 600)%Z /\
  Forall (fun msg => plain_message msg = true) [bullish; bare] /\
  get_stocktwits_data (stream [bullish; bare]) "AAPL" 50
  = Ret [ {| msg_id := JInt 1; msg_body := JText "to the moon";
             msg_created_at := JText "2024-01-02T15:00:00Z";
             msg_user_username := JText "ann"; msg_user_id := JInt 7;
             msg_symbols := [JText "AAPL"]; msg_sentiment := JText "Bullish" |};
          {| msg_id := JInt 3; msg_body := JText "hello";
             msg_created_at := JNone;
             msg_user_username := JNone; msg_user_id := JNone;
             msg_symbols := []; msg_sentiment := JNone |} ].
Proof.
  assert (H1 : ~ (400 <= 200 < 600)%Z) by lia.
  assert (H2 : Forall (fun msg => plain_message msg = true) [bullish; bare])
    by (repeat constructor).
  split; [exact H1|]. split; [exact H2|].
  exact (get_stocktwits_data_lists_every_message "AAPL" 50 200
           [("response", JDict [("status", JInt 200)]);
            ("messages", JList [bullish; bare])]
           [bullish; bare] H1 eq_refl H2).
Defined.

(** One message whose user or whose sentiment is [None] empties the whole
    answer: the lookup on [None] raises inside the loop, and the handler
    returns an empty list whatever the other messages hold. *)
Theorem get_stocktwits_data_loses_all_to_one_null
    (ticker : string) (limit : Z) (status : Z)
    (fields : list (string * Json)) (messages : list Json)
    (message : list (string * Json)) :
  dict_get fields "messages" = Some (JList messages) ->
  JDict message ∈ messages ->
  dict_get message "user" = Some JNone \/
  (exists entities,
     dict_get message "entities" = Some (JDict entities) /\
     dict_get entities "sentiment" = Some JNone) ->
  get_stocktwits_data
    (fun _ _ => Ret {| http_status := status; http_json := Ret (JDict fields) |})
    ticker limit
  = Ret [].
Proof.
  intros Hfields Hin Hnull.
  unfold get_stocktwits_data. cbn [mbind Exc_bind].
  destruct (http_raise_for_status _) as [[]|e]; cbn [mbind Exc_bind];
    [|cbn; destruct (is_RequestException e); reflexivity].
  cbn [http_json mbind Exc_bind truthy].
  assert (Htruthy : negb (length fields =? 0) = true)
    by (destruct fields; [discriminate | reflexivity]).
  rewrite Htruthy. cbn [contains mbind Exc_bind]. unfold dict_mem.
  rewrite Hfields. cbn [subscript mbind Exc_bind]. rewrite Hfields.
  cbn [iterate mbind Exc_bind].
  destruct (message_info_null message Hnull) as [exn Hexn].
  destruct (mapM_raises message_info messages _ exn Hin Hexn) as [exn' ->].
  cbn. destruct (is_RequestException exn'); reflexivity.
Qed.

Lemma get_stocktwits_data_loses_all_to_one_null_witness :
  unrated ∈ [bullish; unrated; bare] /\
  get_stocktwits_data (stream [bullish; unrated; bare]) "AAPL" 50 = Ret [].
Proof.
  assert (Hin : unrated ∈ [bullish; unrated; bare]) by (right; left).
  split; [exact Hin|].
  refine (get_stocktwits_data_loses_all_to_one_null "AAPL" 50 200
            [("response", JDict [("status", JInt 200)]);
             ("messages", JList [bullish; unrated; bare])]
            [bullish; unrated; bare] _ eq_refl Hin _).
  right. exists [("sentiment", JNone)]. split; reflexivity.
Defined.

(** ** data_collection.py: Google Trends *)

Section TrendsFacts.
Context {F : Type} `{Float64 F}.

Lemma dict_get_filter_bool {S} (keep : string -> bool) (d : list (string * S)) k :
  keep k = true ->
  dict_get (List.filter (fun kv => keep (fst kv)) d) k = dict_get d k.
Proof.
  intros Hk. induction d as [|[k0 v0] d IH]; [reflexivity|].
  cbn [List.filter fst]. destruct (keep k0) eqn:Hk0; cbn [dict_get].
  - rewrite IH. reflexivity.
  - rewrite IH. destruct (String.eqb k k0) eqn:Heq; [|reflexivity].
    apply String.eqb_eq in Heq. congruence.
Qed.

Lemma dict_get_filter_dropped {S} (keep : string -> bool) (d : list (string * S)) k :
  keep k = false ->
  dict_get (List.filter (fun kv => keep (fst kv)) d) k = None.
Proof.
  intros Hk. induction d as [|[k0 v0] d IH]; [reflexivity|].
  cbn [List.filter fst]. destruct (keep k0) eqn:Hk0; [|exact IH].
  cbn [dict_get]. destruct (String.eqb k k0) eqn:Heq; [|exact IH].
  apply String.eqb_eq in Heq. congruence.
Qed.

Lemma filter_nothing_dropped {S} (keep : string -> bool) (d : list (string * S)) :
  (forall k, keep k = false -> dict_get d k = None) ->
  List.filter (fun kv => keep (fst kv)) d = d.
Proof.
  induction d as [|[k0 v0] d IH]; intros Hnone; [reflexivity|].
  cbn [List.filter fst]. destruct (keep k0) eqn:Hk0.
  - f_equal. apply IH. intros k Hk. specialize (Hnone k Hk).
    cbn [dict_get] in Hnone. destruct (String.eqb k k0); [discriminate|exact Hnone].
  - specialize (Hnone k0 Hk0). cbn [dict_get] in Hnone.
    rewrite String.eqb_refl in Hnone. discriminate.
Qed.

(** What the Google Trends adapter hands back when it hands back a frame:
    the provider's frame, which has rows and a column named after the
    keyword, with the same index and with the same columns in the same
    order except [isPartial], which is gone. The keyword's column is
    handed on untouched, unless the keyword is itself [isPartial]: then
    the frame comes back without the column that was asked for. *)
Theorem get_google_trends_data_drops_isPartial_only
    (interest_over_time : string -> string -> Exc (DataFrame F))
    (keyword timeframe : string) (df : DataFrame F) :
  get_google_trends_data interest_over_time keyword timeframe = Ret (Some df) ->
  exists raw,
    interest_over_time keyword timeframe = Ret raw /\
    empty raw = false /\
    has_column raw keyword = true /\
    df_index df = df_index raw /\
    df_columns df
    = List.filter (fun kv => negb (String.eqb (fst kv) "isPartial"))
        (df_columns raw) /\
    has_column df "isPartial" = false /\
    (forall col, col <> "isPartial" -> getitem df col = getitem raw col) /\
    (keyword = "isPartial" -> has_column df keyword = false).
Proof.
  unfold get_google_trends_data.
  destruct (interest_over_time keyword timeframe) as [raw|e]; cbn;
    [|discriminate].
  destruct (empty raw) eqn:Hempty; cbn; [discriminate|].
  destruct (has_column raw keyword) eqn:Hkeyword; cbn; [|discriminate].
  set (keep := fun k => negb (String.eqb k "isPartial")).
  assert (Hcols : df_columns df
                  = List.filter (fun kv => keep (fst kv)) (df_columns raw) ->
                  df_index df = df_index raw ->
                  exists raw0,
                    Ret raw = Ret raw0 /\ empty raw0 = false /\
                    has_column raw0 keyword = true /\
                    df_index df = df_index raw0 /\
                    df_columns df
                    = List.filter (fun kv => keep (fst kv)) (df_columns raw0) /\
                    has_column df "isPartial" = false /\
                    (forall col, col <> "isPartial" ->
                                 getitem df col = getitem raw0 col) /\
                    (keyword = "isPartial" -> has_column df keyword = false)).
  { intros Hc Hi. exists raw. repeat split; try assumption.
    - unfold has_column, dict_mem. rewrite Hc.
      rewrite (dict_get_filter_dropped keep) by reflexivity. reflexivity.
    - intros col Hcol. unfold getitem. rewrite Hc.
      rewrite (dict_get_filter_bool keep); [reflexivity|].
      unfold keep. apply String.eqb_neq in Hcol. rewrite Hcol. reflexivity.
    - intros ->. unfold has_column, dict_mem. rewrite Hc.
      rewrite (dict_get_filter_dropped keep) by reflexivity. reflexivity. }
  destruct (has_column raw "isPartial") eqn:Hflag; intros [= <-]; apply Hcols.
  - unfold drop_columns. cbn [df_columns]. apply filter_ext. intros [k v]. cbn.
    unfold keep. rewrite orb_false_r. reflexivity.
  - reflexivity.
  - symmetry. apply filter_nothing_dropped. intros k Hk.
    unfold keep in Hk. apply negb_false_iff, String.eqb_eq in Hk. subst k.
    unfold has_column, dict_mem in Hflag.
    destruct (dict_get (df_columns raw) "isPartial"); [discriminate | reflexivity].
  - reflexivity.
Qed.

(** The Google Trends adapter raises nothing, and it returns [None]
    exactly when a pytrends call raises, when the frame has no rows, or
    when the frame has no column named after the keyword. *)
Theorem get_google_trends_data_None
    (interest_over_time : string -> string -> Exc (DataFrame F))
    (keyword timeframe : string) :
  (exists answer,
     get_google_trends_data interest_over_time keyword timeframe = Ret answer) /\
  (get_google_trends_data interest_over_time keyword timeframe = Ret None
   <-> (exists exn, interest_over_time keyword timeframe = Raise exn) \/
       (exists raw, interest_over_time keyword timeframe = Ret raw /\
                    (empty raw = true \/ has_column raw keyword = false))).
Proof.
  unfold get_google_trends_data.
  destruct (interest_over_time keyword timeframe) as [raw|e]; cbn.
  - destruct (empty raw) eqn:Hempty; cbn.
    + split; [eauto|]. split; [|reflexivity]. intros _. right. eauto.
    + destruct (has_column raw keyword) eqn:Hkeyword; cbn.
      * split; [eauto|]. split; [discriminate|].
        intros [[exn [=]] | (raw' & [= <-] & [Hc|Hc])]; congruence.
      * split; [eauto|]. split; [|reflexivity]. intros _. right. eauto.
  - split; [eauto|]. split; [|reflexivity]. intros _. left. eauto.
Qed.

End TrendsFacts.

Lemma get_google_trends_data_drops_isPartial_only_witness :
  get_google_trends_data trends "AAPL" "today 3-m"
  = Ret (Some {| df_index := df_index interest;
                 df_columns := [("AAPL", Numeric [Some 61%R; Some 74%R])] |}) /\
  exists raw,
    trends "AAPL" "today 3-m" = Ret raw /\
    empty raw = false /\
    has_column raw "AAPL" = true.
Proof.
  assert (Hrun : get_google_trends_data trends "AAPL" "today 3-m"
    = Ret (Some {| df_index := df_index interest;
                   df_columns := [("AAPL", Numeric [Some 61%R; Some 74%R])] |}))
    by reflexivity.
  split; [exact Hrun|].
  destruct (get_google_trends_data_drops_isPartial_only trends "AAPL"
              "today 3-m" _ Hrun) as (raw & H1 & H2 & H3 & _).
  exists raw. auto.
Defined.

(** ** visualizations.py: the benchmark *)

Section BenchmarkFacts.
Context {V : Type} (mul div : V -> V -> V).

Lemma mapM_got {A B} (f : A -> Attempt B) (g : A -> B) (l : list A) :
  Forall (fun x => f x = Got (g x)) l -> mapM f l = Got (map g l).
Proof.
  induction 1 as [|x l Hx _ IH]; [reflexivity|].
  cbn [mapM map]. rewrite Hx. cbn [mbind Attempt_bind].
  change (mapM f l ≫= (fun k => mret (g x :: k)) = Got (g x :: map g l)).
  rewrite IH. reflexivity.
Qed.

Lemma rows_until_cons (d0 : Z) ds (v0 : V) vs d :
  rows_until (d0 :: ds) (v0 :: vs) d
  = if (d0 <=? d)%Z then v0 :: rows_until ds vs d else rows_until ds vs d.
Proof.
  unfold rows_until. cbn. destruct (d0 <=? d)%Z; reflexivity.
Qed.

(** No row is selected exactly when every row is dated after [d]. *)
Lemma rows_until_nil ds : forall (vs : list V) d,
  length ds = length vs ->
  (rows_until ds vs d = [] <-> Forall (fun x => (d < x)%Z) ds).
Proof.
  induction ds as [|d0 ds IH]; intros [|v0 vs] d Hlen; try discriminate.
  - split; [constructor | reflexivity].
  - rewrite rows_until_cons, Forall_cons.
    destruct (Z.leb_spec d0 d) as [Hle|Hgt].
    + split; [discriminate|]. intros [Hlt _]. lia.
    + rewrite IH by (cbn in Hlen; lia). tauto.
Qed.

Lemma mask_selects_nothing ds (d : Z) :
  forallb negb (map (fun x => (x <=? d)%Z) ds) = true
  <-> Forall (fun x => (d < x)%Z) ds.
Proof.
  induction ds as [|d0 ds IH]; cbn.
  - split; [constructor | reflexivity].
  - rewrite Forall_cons, andb_true_iff, IH, negb_true_iff, Z.leb_gt. tauto.
Qed.

(** The last selected row is the last row, in frame order, dated [d] or
    earlier. *)
Lemma last_rows_until ds : forall (vs : list V) d v,
  length ds = length vs ->
  last (rows_until ds vs d) = Some v ->
  exists j dj,
    ds !! j = Some dj /\ vs !! j = Some v /\ (dj <= d)%Z /\
    (forall i di, j < i -> ds !! i = Some di -> (d < di)%Z).
Proof.
  induction ds as [|d0 ds IH]; intros [|v0 vs] d v Hlen Hlast; try discriminate.
  assert (Hlen' : length ds = length vs) by (cbn in Hlen; lia).
  rewrite rows_until_cons in Hlast.
  destruct (Z.leb_spec d0 d) as [Hle|Hgt].
  - rewrite last_cons in Hlast.
    destruct (last (rows_until ds vs d)) as [v'|] eqn:Hrest.
    + injection Hlast as ->.
      destruct (IH vs d v Hlen' Hrest) as (j & dj & Hj & Hv & Hdj & Hafter).
      exists (S j), dj. repeat split; try assumption.
      intros [|i] di Hi Hdi; [lia|]. apply (Hafter i); [lia | exact Hdi].
    + injection Hlast as ->. apply last_None in Hrest.
      apply (rows_until_nil ds vs d Hlen') in Hrest.
      exists 0, d0. repeat split; try assumption.
      intros [|i] di Hi Hdi; [lia|].
      rewrite Forall_forall in Hrest. apply Hrest.
      apply list_elem_of_lookup. eauto.
  - destruct (IH vs d v Hlen' Hlast) as (j & dj & Hj & Hv & Hdj & Hafter).
    exists (S j), dj. repeat split; try assumption.
    intros [|i] di Hi Hdi; [lia|]. apply (Hafter i); [lia | exact Hdi].
Qed.

Lemma sorted_lookup_le (ds : list Z) :
  StronglySorted Z.le ds ->
  forall i j a b, i <= j -> ds !! i = Some a -> ds !! j = Some b -> (a <= b)%Z.
Proof.
  induction 1 as [|d0 ds Hsorted IH Hd0]; intros i j a b Hij Hi Hj;
    [discriminate|].
  destruct i as [|i], j as [|j]; cbn in Hi, Hj.
  - injection Hi as <-. injection Hj as <-. lia.
  - injection Hi as <-. rewrite Forall_forall in Hd0. apply Hd0.
    apply list_elem_of_In, list_elem_of_In, list_elem_of_lookup. eauto.
  - lia.
  - apply (IH i j); [lia | assumption | assumption].
Qed.

Lemma zip_with_shares (shares : V) (ps : list V) :
  zip_with mul (map (fun _ => shares) ps) ps = map (mul shares) ps.
Proof.
  induction ps as [|p ps IH]; cbn; [reflexivity|]. rewrite IH. reflexivity.
Qed.

(** The benchmark for a frame with a [DATE] column of stamps and a price
    column of as many numbers, at least one. *)
Lemma calculate_benchmark_value_rows (spy_df : list (string * SpyColumn V))
    (price_column : string) (portfolio_df : list (Point V)) (c : V)
    (ds : list Z) (p0 : V) (ps : list V) :
  dict_get spy_df "DATE" = Some (Stamps ds) ->
  dict_get spy_df price_column = Some (Floats (p0 :: ps)) ->
  price_column <> "SHARES" ->
  length ds = S (length ps) ->
  calculate_benchmark_value mul div spy_df price_column portfolio_df c
  = Got (Some
      (map (fun p =>
              {| DATE := DATE p;
                 VALUE := default c
                   (last (rows_until ds (map (mul (div c p0)) (p0 :: ps))
                            (DATE p))) |})
         portfolio_df)).
Proof.
  intros HDATE Hprice Hname Hlen.
  unfold calculate_benchmark_value, dict_mem. rewrite Hprice. cbn [negb].
  unfold spy_getitem. rewrite Hprice.
  cbn [mbind Attempt_bind iloc_first].
  apply String.eqb_neq in Hname.
  rewrite !dict_get_set.
  rewrite String.eqb_refl, Hname, Hprice. cbn [mbind Attempt_bind].
  rewrite zip_with_shares.
  set (values := map (mul (div c p0)) (p0 :: ps)).
  rewrite (mapM_got _
    (fun p => default c (last (rows_until ds values (DATE p))))).
  - cbn [mbind Attempt_bind]. do 2 f_equal.
    induction portfolio_df as [|p portfolio_df IH]; [reflexivity|].
    cbn [map zip_with]. rewrite IH. reflexivity.
  - apply Forall_forall. intros p _.
    unfold benchmark_at, spy_getitem. rewrite !dict_get_set.
    cbn [String.eqb Ascii.eqb Bool.eqb andb]. rewrite HDATE.
    cbn [mbind Attempt_bind].
    assert (Hlens : length ds = length values)
      by (unfold values; rewrite length_map; cbn; exact Hlen).
    destruct (forallb negb _) eqn:Hmask.
    + apply mask_selects_nothing, (rows_until_nil ds values _ Hlens) in Hmask.
      rewrite Hmask. reflexivity.
    + cbn [mbind Attempt_bind]. fold (rows_until ds values (DATE p)).
      destruct (last (rows_until ds values (DATE p))) as [v|] eqn:Hlast;
        [reflexivity|].
      apply last_None, (rows_until_nil ds values _ Hlens),
        mask_selects_nothing in Hlast.
      congruence.
Qed.

(** The function answers None for a missing price column and for nothing
    else: with the column present it returns a frame or raises. *)
Theorem calculate_benchmark_value_None_iff_column_missing
    (spy_df : list (string * SpyColumn V)) (price_column : string)
    (portfolio_df : list (Point V)) (c : V) :
  calculate_benchmark_value mul div spy_df price_column portfolio_df c = Got None
  <-> dict_get spy_df price_column = None.
Proof.
  unfold calculate_benchmark_value, dict_mem, spy_getitem.
  destruct (dict_get spy_df price_column) as [[ts|ps]|] eqn:Hprice;
    cbn [negb mbind Attempt_bind]; [| |tauto].
  - destruct ts; cbn [iloc_first mbind Attempt_bind];
      split; discriminate.
  - destruct ps as [|p0 ps]; cbn [iloc_first mbind Attempt_bind];
      [split; discriminate|].
    rewrite !dict_get_set, String.eqb_refl. cbn [mbind Attempt_bind].
    destruct (String.eqb price_column "SHARES");
      [|rewrite Hprice]; cbn [mbind Attempt_bind];
      (destruct (mapM _ portfolio_df); cbn [mbind Attempt_bind];
       split; discriminate).
Qed.

(** A SPY frame that has the price column and no rows makes the function
    raise IndexError, at [.iloc[0]]. *)
Theorem calculate_benchmark_value_raises_on_no_rows
    (spy_df : list (string * SpyColumn V)) (price_column : string)
    (portfolio_df : list (Point V)) (c : V) :
  (dict_get spy_df price_column = Some (Floats [])
   \/ dict_get spy_df price_column = Some (Stamps [])) ->
  calculate_benchmark_value mul div spy_df price_column portfolio_df c
  = Thrown IndexError.
Proof.
  intros [Hprice|Hprice];
    unfold calculate_benchmark_value, dict_mem, spy_getitem;
    rewrite Hprice; reflexivity.
Qed.

(** The benchmark has one row per row of the portfolio frame, with the
    same dates in the same order, and a portfolio date that precedes
    every SPY date is valued at the initial capital. *)
Theorem benchmark_keeps_the_portfolio_dates
    (spy_df : list (string * SpyColumn V)) (price_column : string)
    (portfolio_df : list (Point V)) (c : V)
    (ds : list Z) (p0 : V) (ps : list V) :
  dict_get spy_df "DATE" = Some (Stamps ds) ->
  dict_get spy_df price_column = Some (Floats (p0 :: ps)) ->
  price_column <> "SHARES" ->
  length ds = S (length ps) ->
  exists benchmark_df,
    calculate_benchmark_value mul div spy_df price_column portfolio_df c
    = Got (Some benchmark_df)
    /\ map DATE benchmark_df = map DATE portfolio_df
    /\ forall i q, benchmark_df !! i = Some q ->
         Forall (fun d => (DATE q < d)%Z) ds -> VALUE q = c.
Proof.
  intros HDATE Hprice Hname Hlen.
  eexists. split; [|split].
  - apply (calculate_benchmark_value_rows _ _ _ _ ds p0 ps); assumption.
  - rewrite <- list_fmap_compose. reflexivity.
  - intros i q Hq Hbefore. apply list_lookup_fmap_Some in Hq as (p & -> & _).
    cbn [DATE VALUE] in *.
    assert (Hlens : length ds = length (map (mul (div c p0)) (p0 :: ps)))
      by (rewrite length_map; exact Hlen).
    rewrite (proj2 (rows_until_nil ds _ (DATE p) Hlens) Hbefore). reflexivity.
Qed.

(** With the SPY rows in date order, as [calculate_spy_benchmarks] passes
    them, a portfolio date is valued at the shares bought at the first
    price times the price of the last SPY row dated that day or
    earlier. *)
Theorem benchmark_follows_the_latest_price
    (spy_df : list (string * SpyColumn V)) (price_column : string)
    (portfolio_df : list (Point V)) (c : V)
    (ds : list Z) (p0 : V) (ps : list V) :
  dict_get spy_df "DATE" = Some (Stamps ds) ->
  dict_get spy_df price_column = Some (Floats (p0 :: ps)) ->
  price_column <> "SHARES" ->
  length ds = S (length ps) ->
  StronglySorted Z.le ds ->
  exists benchmark_df,
    calculate_benchmark_value mul div spy_df price_column portfolio_df c
    = Got (Some benchmark_df)
    /\ forall i q j dj pj,
         benchmark_df !! i = Some q ->
         ds !! j = Some dj -> (p0 :: ps) !! j = Some pj ->
         (dj <= DATE q)%Z ->
         (forall next, ds !! S j = Some next -> (DATE q < next)%Z) ->
         VALUE q = mul (div c p0) pj.
Proof.
  intros HDATE Hprice Hname Hlen Hsorted.
  eexists. split.
  - apply (calculate_benchmark_value_rows _ _ _ _ ds p0 ps); assumption.
  - intros i q j dj pj Hq Hdj Hpj Hle Hnext.
    apply list_lookup_fmap_Some in Hq as (p & -> & _). cbn [DATE VALUE] in *.
    set (values := map (mul (div c p0)) (p0 :: ps)).
    assert (Hlens : length ds = length values)
      by (unfold values; rewrite length_map; exact Hlen).
    destruct (last (rows_until ds values (DATE p))) as [v|] eqn:Hlast.
    + destruct (last_rows_until ds values _ v Hlens Hlast)
        as (j' & dj' & Hj' & Hv & Hdj' & Hafter).
      assert (j' = j) as ->.
      { destruct (Nat.lt_trichotomy j j') as [Hlt|[Heq|Hgt]]; [|auto|].
        - destruct (ds !! S j) as [next|] eqn:HSj.
          + specialize (Hnext next eq_refl).
            pose proof (sorted_lookup_le ds Hsorted (S j) j' next dj'
                          ltac:(lia) HSj Hj').
            lia.
          + apply lookup_ge_None in HSj. apply lookup_lt_Some in Hj'. lia.
        - specialize (Hafter j dj Hgt Hdj). lia. }
      unfold values in Hv. rewrite list_lookup_fmap, Hpj in Hv.
      injection Hv as <-. reflexivity.
    + apply last_None, (rows_until_nil ds values _ Hlens) in Hlast.
      rewrite Forall_forall in Hlast.
      assert (DATE p < dj)%Z
        by (apply Hlast, list_elem_of_lookup; eauto).
      lia.
Qed.

End BenchmarkFacts.

Lemma calculate_benchmark_value_raises_on_no_rows_witness :
  calculate_benchmark_value Z.mul Z.div spy_without_rows "OPEN" portfolio 10000%Z
  = Thrown IndexError.
Proof.
  apply calculate_benchmark_value_raises_on_no_rows. left. reflexivity.
Defined.

Lemma benchmark_keeps_the_portfolio_dates_witness :
  exists benchmark_df,
    calculate_benchmark_value Z.mul Z.div spy "OPEN" portfolio 10000%Z
    = Got (Some benchmark_df)
    /\ map DATE benchmark_df = map DATE portfolio
    /\ forall i q, benchmark_df !! i = Some q ->
         Forall (fun d => (DATE q < d)%Z) [2; 5; 8]%Z -> VALUE q = 10000%Z.
Proof.
  apply (benchmark_keeps_the_portfolio_dates Z.mul Z.div spy "OPEN" portfolio
           10000%Z [2; 5; 8]%Z 100%Z [110; 120]%Z);
    [reflexivity | reflexivity | discriminate | reflexivity].
Defined.

Lemma benchmark_follows_the_latest_price_witness :
  exists benchmark_df,
    calculate_benchmark_value Z.mul Z.div spy "OPEN" portfolio 10000%Z
    = Got (Some benchmark_df)
    /\ forall i q j dj pj,
         benchmark_df !! i = Some q ->
         [2; 5; 8]%Z !! j = Some dj -> [100; 110; 120]%Z !! j = Some pj ->
         (dj <= DATE q)%Z ->
         (forall next, [2; 5; 8]%Z !! S j = Some next -> (DATE q < next)%Z) ->
         VALUE q = (10000 / 100 * pj)%Z.
Proof.
  apply (benchmark_follows_the_latest_price Z.mul Z.div spy "OPEN" portfolio
           10000%Z [2; 5; 8]%Z 100%Z [110; 120]%Z);
    [reflexivity | reflexivity | discriminate | reflexivity |].
  repeat constructor; lia.
Defined.

(** The three benchmark values of the example: the capital before SPY
    starts, then 100 shares at 110 and at 120. *)
Example benchmark_of_three_days :
  calculate_benchmark_value Z.mul Z.div spy "OPEN" portfolio 10000%Z
  = Got (Some [{| DATE := 1; VALUE := 10000 |}; {| DATE := 5; VALUE := 11000 |};
               {| DATE := 9; VALUE := 12000 |}]%Z).
Proof. reflexivity. Qed.

(** ** visualizations.py: the trade markers *)

Section MarkerFacts.
Context {V : Type} (add : V -> V -> V) (gt0 le0 : V -> bool) (ten_thousand : V).

Lemma marker_values_spec (rows : list (Trade V)) : forall c winning losing,
  marker_values add gt0 rows c winning losing
  = (winning ++ map VALUE (points_where gt0 rows (iterrows add rows c)),
     losing ++ map VALUE
       (points_where (fun v => negb (gt0 v)) rows (iterrows add rows c))).
Proof.
  induction rows as [|row rows IH]; intros c winning losing.
  - cbn. rewrite !app_nil_r. reflexivity.
  - cbn [marker_values iterrows]. unfold points_where in *.
    cbn [zip zip_with List.filter fst snd].
    destruct (gt0 (PL_dollars row)); cbn [negb map snd VALUE];
      rewrite IH, <- ?app_assoc; reflexivity.
Qed.

Lemma points_where_dates (test : V -> bool) (rows : list (Trade V)) : forall c,
  map DATE (points_where test rows (iterrows add rows c))
  = map Exit_Date (List.filter (fun t => test (PL_dollars t)) rows).
Proof.
  induction rows as [|row rows IH]; intros c; [reflexivity|].
  cbn [iterrows]. unfold points_where in *.
  cbn [zip zip_with List.filter fst snd].
  destruct (test (PL_dollars row)); cbn [map snd DATE]; rewrite IH; reflexivity.
Qed.

Lemma points_where_ext (test test' : V -> bool) (rows : list (Trade V)) :
  Forall (fun t => test (PL_dollars t) = test' (PL_dollars t)) rows ->
  forall points, points_where test rows points = points_where test' rows points.
Proof.
  unfold points_where.
  induction 1 as [|row rows Hrow _ IH]; intros [|p points]; try reflexivity.
  cbn [zip zip_with List.filter fst snd]. rewrite Hrow.
  destruct (test' (PL_dollars row)); cbn [map snd]; rewrite IH; reflexivity.
Qed.

Lemma trace_points_of (points : list (Point V)) :
  trace_points (map DATE points) (map VALUE points) = points.
Proof.
  induction points as [|[d v] points IH]; [reflexivity|].
  cbn. unfold trace_points in IH. rewrite IH. reflexivity.
Qed.

(** The markers of the chart are points of the running capital that
    starts from 10000.0: the winners are the points of the trades with a
    positive P/L and, when every P/L compares with 0, the losers are the
    points of the other trades; both traces then have as many x as y
    values, one marker per trade. *)
Theorem markers_are_points_of_the_10000_series (ledger_df : list (Trade V)) :
  Forall (fun t => le0 (PL_dollars t) = negb (gt0 (PL_dollars t))) ledger_df ->
  let m := trade_markers add gt0 le0 ten_thousand ledger_df in
  let points := iterrows add ledger_df ten_thousand in
  trace_points (winning_x m) (winning_y m) = points_where gt0 ledger_df points
  /\ trace_points (losing_x m) (losing_y m) = points_where le0 ledger_df points
  /\ length (winning_x m) = length (winning_y m)
  /\ length (losing_x m) = length (losing_y m)
  /\ length (winning_x m) + length (losing_x m) = length ledger_df.
Proof.
  intros Hcmp m points. subst m. unfold trade_markers.
  rewrite marker_values_spec. cbn [app winning_x winning_y losing_x losing_y].
  rewrite <- (points_where_ext le0 _ ledger_df Hcmp).
  rewrite <- !points_where_dates with (c := ten_thousand).
  fold points. rewrite !trace_points_of, !length_map.
  repeat split.
  unfold points_where. rewrite !length_map.
  assert (Hzip : length (zip ledger_df points) = length ledger_df).
  { unfold points. rewrite length_zip_with, (length_iterrows add). lia. }
  rewrite <- Hzip. clear Hzip.
  assert (Hcmp' : Forall (fun tp : Trade V * Point V =>
                    le0 (PL_dollars (fst tp)) = negb (gt0 (PL_dollars (fst tp))))
                   (zip ledger_df points)).
  { apply Forall_forall. intros [t p] Hin. cbn [fst].
    rewrite Forall_forall in Hcmp. apply Hcmp.
    apply elem_of_zip_l in Hin. exact Hin. }
  induction Hcmp' as [|tp l Htp _ IH]; [reflexivity|].
  cbn [List.filter length]. rewrite Htp.
  destruct (gt0 (PL_dollars (fst tp))); cbn [negb length]; lia.
Qed.

End MarkerFacts.

Lemma markers_are_points_of_the_10000_series_witness :
  let m := trade_markers Z.add (Z.ltb 0) (fun v => Z.leb v 0) 10000%Z mixed in
  let points := iterrows Z.add mixed 10000%Z in
  trace_points (winning_x m) (winning_y m)
    = points_where (Z.ltb 0) mixed points
  /\ trace_points (losing_x m) (losing_y m)
    = points_where (fun v => Z.leb v 0) mixed points
  /\ length (winning_x m) = length (winning_y m)
  /\ length (losing_x m) = length (losing_y m)
  /\ length (winning_x m) + length (losing_x m) = length mixed.
Proof.
  apply (markers_are_points_of_the_10000_series Z.add (Z.ltb 0)
           (fun v => Z.leb v 0) 10000%Z mixed).
  repeat constructor.
Defined.
